(** * resumestate: locating the failed step of a Step Functions execution
      and building the state machine that resumes from it

    A shallow embedding of [resumestate.py].  Python values are modelled
    with the types the script handles them at: strings as [string], each
    character a code point below 256, integers as [Z], lists as [list] read through Python's
    indexing rules, JSON objects as finite maps from keys to JSON values,
    and the boto3 history events as records whose optional keys are
    [option] fields, so that a missing key is the [KeyError] it is in
    Python.  Exceptions are values of [exn]; a computation either returns,
    raises, or exhausts the fuel that bounds the [while] loop.  The calls
    to the logger change nothing the script computes and are left out. *)

From Stdlib Require Import ZArith String Ascii List Lia Bool.
From stdpp Require Import base option list strings gmap.
Import ListNotations.

Local Open Scope string_scope.
Local Open Scope list_scope.
Local Open Scope Z_scope.

(** ** Data model *)

(** [executionFailedEventDetails]: both members are optional in the
    service's response shape. *)
Record ExecutionFailedEventDetails : Type := {
  error : option string;
  cause : option string
}.

(** [stateEnteredEventDetails]: [name] is always present, [input] is
    optional. *)
Record StateEnteredEventDetails : Type := {
  name : string;
  input : option string
}.

(** One event of [get_execution_history]. *)
Record HistoryEvent : Type := {
  id : Z;
  type : string;
  previousEventId : option Z;
  executionFailedEventDetails : option ExecutionFailedEventDetails;
  stateEnteredEventDetails : option StateEnteredEventDetails
}.

(** A JSON document as [json.loads] builds it. *)
#[warnings="-register-all"]
Inductive json : Type :=
  | JNull
  | JBool (b : bool)
  | JInt (n : Z)
  | JFloat (repr : string)
  | JStr (s : string)
  | JArr (items : list json)
  | JObj (members : gmap string json).

(** ** Exceptions and results *)

(** The value interpolated at the end of an f-string message. *)
Inductive exn : Type :=
  | Exception (message : string) (interpolated : fmt_arg)
  | KeyError (key : string)
  | IndexError
  | TypeError
  | ValueError
  | ClientError (code : string)
with fmt_arg : Type :=
  | NoArg
  | ArgExn (e : exn)
  | ArgEvents (events : list HistoryEvent).

Inductive result (A : Type) : Type :=
  | Returned (a : A)
  | Raised (e : exn)
  | OutOfFuel.

Arguments Returned {A} a.
Arguments Raised {A} e.
Arguments OutOfFuel {A}.

Definition bind {A B : Type} (c : result A) (k : A -> result B) : result B :=
  match c with
  | Returned a => k a
  | Raised e => Raised e
  | OutOfFuel => OutOfFuel
  end.

Notation "x <- c ;; k" := (bind c (fun x => k))
  (at level 100, c at next level, right associativity).

(** [d[key]] on a dictionary whose member [key] may be absent. *)
Definition getitem_key {A : Type} (key : string) (member : option A) : result A :=
  match member with
  | Some a => Returned a
  | None => Raised (KeyError key)
  end.

(** ** Python sequences and strings *)

(** [l[i]] for an integer [i]: a negative index counts from the end, and
    an index outside [-len, len) raises [IndexError]. *)
Definition list_getitem {A : Type} (l : list A) (i : Z) : result A :=
  let n := Z.of_nat (length l) in
  let j := if i <? 0 then i + n else i in
  if (j <? 0) || (n <=? j) then Raised IndexError
  else match l !! Z.to_nat j with
       | Some a => Returned a
       | None => Raised IndexError
       end.

(** [l[i] = x] for a non-negative literal index [i]. *)
Definition list_setitem {A : Type} (l : list A) (i : nat) (x : A) : result (list A) :=
  if decide (i < length l)%nat then Returned (<[i := x]> l)
  else Raised IndexError.

(** [l[:-1]] *)
Definition drop_last {A : Type} (l : list A) : list A :=
  take (length l - 1)%nat l.

(** [s.split(sep)] for a one-character separator: never empty, and
    adjacent separators delimit empty strings. *)
Fixpoint split (sep : ascii) (s : string) : list string :=
  match s with
  | EmptyString => [EmptyString]
  | String c rest =>
      if Ascii.eqb c sep then EmptyString :: split sep rest
      else match split sep rest with
           | [] => [String c EmptyString]
           | piece :: pieces => String c piece :: pieces
           end
  end.

(** [sep.join(l)] *)
Fixpoint join (sep : string) (l : list string) : string :=
  match l with
  | [] => EmptyString
  | [piece] => piece
  | piece :: pieces => piece +:+ sep +:+ join sep pieces
  end.

(** [c.isspace()], which is also what [str.split()] splits at: below 256
    the whitespace code points are the controls 9-13 and 28-31, the
    space, the next-line control 133 and the no-break space 160. *)
Definition isspace (c : ascii) : bool :=
  let n := nat_of_ascii c in
  ((9 <=? n) && (n <=? 13) || (28 <=? n) && (n <=? 32)
   || (n =? 133) || (n =? 160))%nat.

(** [c.isdigit()]: below 256 the digits are 0-9 and the superscripts
    two, three (178, 179) and one (185). *)
Definition isdigit (c : ascii) : bool :=
  let n := nat_of_ascii c in
  ((48 <=? n) && (n <=? 57) || (n =? 178) || (n =? 179) || (n =? 185))%nat.

(** [s.split()]: the maximal runs of non-whitespace characters. *)
Fixpoint split_whitespace (s : string) : list string :=
  match s with
  | EmptyString => []
  | String c rest =>
      if isspace c then split_whitespace rest
      else
        let tokens := split_whitespace rest in
        let ends_token :=
          match rest with
          | String d _ => isspace d
          | EmptyString => true
          end in
        match tokens with
        | token :: tokens' =>
            if ends_token then String c EmptyString :: tokens
            else String c token :: tokens'
        | [] => [String c EmptyString]
        end
  end.

(** [filter(str.isdigit, s)]: the characters the iterator would yield. *)
Fixpoint filter_isdigit (s : string) : string :=
  match s with
  | EmptyString => EmptyString
  | String c rest =>
      if isdigit c then String c (filter_isdigit rest) else filter_isdigit rest
  end.

(** ** [get_state_machine_arn_from_execution_arn] *)

Definition get_state_machine_arn_from_execution_arn (execution_arn : string)
  : result string :=
  let sm_arn := drop_last (split ":" execution_arn) in
  sm_arn <- list_setitem sm_arn 5 "stateMachine" ;;
  Returned (join ":" sm_arn).

(** ** [parse_failure_history] *)

(** What the page iterator of [paginate_execution] yields next: a page of
    events, or the exception of the fetch that failed. *)
Inductive fetched : Type :=
  | Page (events : list HistoryEvent)
  | FetchError (e : exn).

(** [not failed_event_details]: a dictionary is falsy when it has no
    member. *)
Definition details_empty (details : ExecutionFailedEventDetails) : bool :=
  match error details, cause details with
  | None, None => true
  | _, _ => false
  end.

(** [event['stateEnteredEventDetails']['name']] and [...['input']], read
    in that order. *)
Definition entered_name_input (event : HistoryEvent) : result (string * string) :=
  details <- getitem_key "stateEnteredEventDetails" (stateEnteredEventDetails event) ;;
  let failed_state := name details in
  failed_input <- getitem_key "input" (input details) ;;
  Returned (failed_state, failed_input).

(** [int(filter(str.isdigit, token))].  Under Python 3, which the
    f-strings of the script require, [filter] builds an iterator whatever
    it is given, and [int] raises [TypeError] on an iterator. *)
Definition int_of_filter (digits : string) : result Z :=
  Raised TypeError.

(** Line 59: the integer read from the fourteenth token of the cause. *)
Definition runtime_failed_id (failed_event : list HistoryEvent) : result Z :=
  first <- list_getitem failed_event 0 ;;
  details <- getitem_key "executionFailedEventDetails" (executionFailedEventDetails first) ;;
  message <- getitem_key "cause" (cause details) ;;
  token <- list_getitem (split_whitespace message) 13 ;;
  int_of_filter (filter_isdigit token).

(** Lines 60-62: the state entered by the event at index [-1 * failed_id]. *)
Definition runtime_failed_state (failed_event : list HistoryEvent) (failed_id : Z)
  : result (string * string) :=
  event <- list_getitem failed_event (-1 * failed_id) ;;
  entered_name_input event.

(** How the [while] loop of lines 64-78 ends: by the [return] of one of
    its branches, or by its condition with the flag as it then stands. *)
Inductive walk_exit : Type :=
  | Found (failed_state failed_input : string)
  | Exhausted (failed_at_parallel_state : bool).

Fixpoint walk (fuel : nat) (failed_event : list HistoryEvent)
    (failed_at_parallel_state : bool) (current_event_id : Z) : result walk_exit :=
  if current_event_id =? 0 then Returned (Exhausted failed_at_parallel_state)
  else
    match fuel with
    | O => OutOfFuel
    | S fuel' =>
        current_event <- list_getitem failed_event (-1 * current_event_id) ;;
        let failed_at_parallel_state :=
          if String.eqb (type current_event) "ParallelStateFailed" then true
          else failed_at_parallel_state in
        if String.eqb (type current_event) "TaskStateEntered"
           && negb failed_at_parallel_state
        then
          found <- entered_name_input current_event ;;
          Returned (Found (fst found) (snd found))
        else if String.eqb (type current_event) "ParallelStateEntered"
                && failed_at_parallel_state
        then
          found <- entered_name_input current_event ;;
          Returned (Found (fst found) (snd found))
        else
          previous <- getitem_key "previousEventId" (previousEventId current_event) ;;
          walk fuel' failed_event failed_at_parallel_state previous
    end.

(** The [for] loop of lines 43-78 over the pages the iterator yields.
    [failed_at_parallel_state] is initialised before the loop and so
    carries over from one page to the next; a loop that runs out of pages
    leaves the function without a [return], which yields [None]. *)
Fixpoint parse_pages (fuel : nat) (failed_at_parallel_state : bool)
    (failed_events : list fetched) : result (option (string * string)) :=
  match failed_events with
  | [] => Returned None
  | FetchError e :: _ => Raised e
  | Page failed_event :: rest =>
      if (length failed_event <? 1)%nat
      then Raised (Exception "no failed events" NoArg)
      else
        first <- list_getitem failed_event 0 ;;
        failed_event_details <-
          getitem_key "executionFailedEventDetails" (executionFailedEventDetails first) ;;
        if details_empty failed_event_details
        then Raised (Exception "unexpected failed event: " (ArgEvents failed_event))
        else
          error_tag <- getitem_key "error" (error failed_event_details) ;;
          if String.eqb error_tag "States.Runtime"
          then
            failed_id <- runtime_failed_id failed_event ;;
            found <- runtime_failed_state failed_event failed_id ;;
            Returned (Some found)
          else
            exit <- walk fuel failed_event failed_at_parallel_state (id first) ;;
            match exit with
            | Found failed_state failed_input =>
                Returned (Some (failed_state, failed_input))
            | Exhausted flag => parse_pages fuel flag rest
            end
  end.

(** ** The Step Functions client *)

Record DescribeStateMachineOutput : Type := {
  machine_name : string;   (* response['name'] *)
  roleArn : string;
  definition : string
}.

Record CreateStateMachineOutput : Type := {
  stateMachineArn : string
}.

(** The calls the script makes on the client, with their keyword
    arguments. *)
Inductive request : Type :=
  | GetExecutionHistory (executionArn : string)
      (reverseOrder includeExecutionData : bool) (PageSize : Z)
  | DescribeStateMachine (machineArn : string)
  | CreateStateMachine (new_name new_definition role : string)
  | StartExecution (machineArn execution_input : string).

(** The answer of the service to one call. *)
Inductive reply (A : Type) : Type :=
  | Ok (a : A)
  | Failed (e : exn).

Arguments Ok {A} a.
Arguments Failed {A} e.

(** The service behind [boto3.client('stepfunctions')].  An answer may
    depend on the calls made so far.  The page iterator makes its first
    request before it tests anything, so that it yields a first page or
    raises: an execution history without events is received as a first
    page with zero events. *)
Record Client : Type := {
  get_execution_history : list request -> string -> list fetched;
  describe_state_machine :
    list request -> string -> reply DescribeStateMachineOutput;
  create_state_machine :
    list request -> string -> string -> string -> reply CreateStateMachineOutput;
  start_execution : list request -> string -> string -> reply unit
}.

(** Computations that call the service thread the log of the calls made. *)
Definition M (A : Type) : Type := list request -> result A * list request.

Definition retM {A : Type} (a : A) : M A := fun log => (Returned a, log).

Definition lift {A : Type} (c : result A) : M A := fun log => (c, log).

Definition bindM {A B : Type} (c : M A) (k : A -> M B) : M B :=
  fun log =>
    match c log with
    | (Returned a, log') => k a log'
    | (Raised e, log') => (Raised e, log')
    | (OutOfFuel, log') => (OutOfFuel, log')
    end.

Notation "x <~ c ;; k" := (bindM c (fun x => k))
  (at level 100, c at next level, right associativity).

(** One call: the request is logged whether or not the service accepts it. *)
Definition call {A : Type} (r : request) (answer : list request -> reply A) : M A :=
  fun log =>
    (match answer log with
     | Ok a => Returned a
     | Failed e => Raised e
     end, log ++ [r]).

(** [try: c  except Exception as e: raise handler(e)] *)
Definition try_except {A : Type} (c : M A) (handler : exn -> exn) : M A :=
  fun log =>
    match c log with
    | (Raised e, log') => (Raised (handler e), log')
    | finished => finished
    end.

(** The literal of line 120. *)
Definition resuming_input : string :=
  Eval cbv in
    let quote := String (ascii_of_nat 34) EmptyString in
    "{" +:+ quote +:+ "resuming" +:+ quote +:+ ": true}".

(** ** The definition of the resuming machine (lines 94-103) *)

(** [obj[key]] for a string key: only a dictionary accepts it. *)
Definition json_getitem (obj : json) (key : string) : result json :=
  match obj with
  | JObj members => getitem_key key (members !! key)
  | _ => Raised TypeError
  end.

(** [obj[key] = value] for a string key. *)
Definition json_setitem (obj : json) (key : string) (value : json) : result json :=
  match obj with
  | JObj members => Returned (JObj (<[key := value]> members))
  | _ => Raised TypeError
  end.

Definition go_to_state (original_start_at : json) (failed_state_name : string) : json :=
  JObj (<["Type" := JStr "Choice"]>
       (<["Choices" :=
            JArr [JObj (<["Variable" := JStr "$.resuming"]>
                       (<["BooleanEquals" := JBool false]>
                       (<["Next" := original_start_at]> ∅)))]]>
       (<["Default" := JStr failed_state_name]> ∅))).

(** The dictionary under ['States'] is updated in place, so the update is
    seen through [state_machine]. *)
Definition insert_go_to_state (state_machine : json) (failed_state_name : string)
  : result json :=
  original_start_at <- json_getitem state_machine "StartAt" ;;
  states <- json_getitem state_machine "States" ;;
  states <- json_setitem states "GoToState" (go_to_state original_start_at failed_state_name) ;;
  state_machine <- json_setitem state_machine "States" states ;;
  json_setitem state_machine "StartAt" (JStr "GoToState").

Section Script.

(** The globals of the module and the [json] functions it imports. *)
Variable client : Client.
Variable date_time : string.
Variable json_loads : string -> reply json.
Variable json_dumps : json -> string.

(** The generator is created without any call; its pages are fetched as
    the loop asks for them, which the log records as the one paginated
    operation. *)
Definition paginate_execution (execution_arn : string) : M (list fetched) :=
  fun log =>
    (Returned (get_execution_history client log execution_arn),
     log ++ [GetExecutionHistory execution_arn true true 1000]).

(** Calling a generator function runs none of its body, so the [try]
    of lines 37-41 has nothing to catch: an exception of a fetch is
    raised from the [for] loop, unwrapped. *)
Definition parse_failure_history (fuel : nat) (failed_execution_arn : string)
  : M (option (string * string)) :=
  failed_events <~ paginate_execution failed_execution_arn ;;
  lift (parse_pages fuel false failed_events).

Definition attach_go_to_state (failed_state_name state_machine_arn : string)
  : M CreateStateMachineOutput :=
  response <~
    try_except
      (call (DescribeStateMachine state_machine_arn)
            (fun log => describe_state_machine client log state_machine_arn))
      (fun cause =>
         Exception "Could not get ASL definition of state machine: " (ArgExn cause)) ;;
  let role_arn := roleArn response in
  state_machine <~
    lift (match json_loads (definition response) with
          | Ok document => Returned document
          | Failed e => Raised e
          end) ;;
  let new_name := machine_name response +:+ "-resumeState-" +:+ date_time in
  state_machine <~ lift (insert_go_to_state state_machine failed_state_name) ;;
  try_except
    (call (CreateStateMachine new_name (json_dumps state_machine) role_arn)
          (fun log =>
             create_state_machine client log new_name (json_dumps state_machine) role_arn))
    (fun e =>
       Exception "Failed to create new state machine with GoToState: " (ArgExn e)).

Definition start_new_state_machine_execution (new_machine_arn : string) : M unit :=
  response <~
    try_except
      (call (StartExecution new_machine_arn resuming_input)
            (fun log => start_execution client log new_machine_arn resuming_input))
      (fun e => Exception "Failed to start Execution: " (ArgExn e)) ;;
  retM tt.

(** Unpacking [None] into two names is a [TypeError]. *)
Definition unpack_pair (located : option (string * string)) : result (string * string) :=
  match located with
  | Some found => Returned found
  | None => Raised TypeError
  end.

Definition main (fuel : nat) (execution_arn : string) : M unit :=
  located <~ parse_failure_history fuel execution_arn ;;
  found <~ lift (unpack_pair located) ;;
  let failed_state_machine_state := fst found in
  failed_state_machine_arn <~
    lift (get_state_machine_arn_from_execution_arn execution_arn) ;;
  new_machine <~ attach_go_to_state failed_state_machine_state failed_state_machine_arn ;;
  let new_machine_arn := stateMachineArn new_machine in
  start_new_state_machine_execution new_machine_arn.

End Script.

(** ** [tools/utils.py]: [query] and [query_to] *)

(** [s.replace(old, "")]: the occurrences of [old] are removed from left
    to right, each starting after the end of the one before; an empty
    [old] leaves the string as it is.  [skip] counts the characters of an
    occurrence still to be passed. *)
Fixpoint remove_from (skip : nat) (old s : string) : string :=
  match s with
  | EmptyString => EmptyString
  | String c rest =>
      match skip with
      | S skip' => remove_from skip' old rest
      | O =>
          if String.prefix old s
          then remove_from (String.length old - 1) old rest
          else String c (remove_from 0 old rest)
      end
  end.

Definition remove_all (old s : string) : string :=
  match old with
  | EmptyString => s
  | _ => remove_from 0 old s
  end.

(** [s.split(sep, 1)] for a one-character separator: the part before the
    first separator and the part after it, or the string alone. *)
Fixpoint split_once (sep : ascii) (s : string) : list string :=
  match s with
  | EmptyString => [EmptyString]
  | String c rest =>
      if Ascii.eqb c sep then [EmptyString; rest]
      else match split_once sep rest with
           | [] => [String c EmptyString]
           | piece :: pieces => String c piece :: pieces
           end
  end.

(** The members of the response of the query service that [query] reads,
    each of them optional. *)
Record ResultConfigurationShape : Type := {
  OutputLocation : option string
}.

Record QueryExecutionShape : Type := {
  ResultConfiguration : option ResultConfigurationShape
}.

Record QueryResponse : Type := {
  QueryExecution : option QueryExecutionShape
}.

(** [RuntimeError] is raised by the module itself; every other exception
    comes from an access or from a service. *)
Inductive utils_exn : Type :=
  | RuntimeError (message : string)
  | Propagated (e : exn).

Inductive outcome (A : Type) : Type :=
  | Done (a : A)
  | Fails (e : utils_exn).

Arguments Done {A} a.
Arguments Fails {A} e.

(** The calls made on the runner and on the storage client; the copy
    carries its two extra arguments. *)
Inductive utils_call : Type :=
  | RunOne (query_str job_name : string)
  | Copy (source_bucket source_key target_bucket target_key : string)
      (ServerSideEncryption ACL : string).

(** The runner passed to [query]: [run_one] answers with the id of the
    query or with [None], and [last_query_response] is the attribute read
    after it. *)
Record AthenaRunner : Type := {
  run_one : list utils_call -> string -> string -> reply (option string);
  last_query_response : list utils_call -> QueryResponse
}.

Record S3Client : Type := {
  copy : list utils_call -> string -> string -> string -> string -> reply unit
}.

Definition U (A : Type) : Type := list utils_call -> outcome A * list utils_call.

Definition bindU {A B : Type} (c : U A) (k : A -> U B) : U B :=
  fun log =>
    match c log with
    | (Done a, log') => k a log'
    | (Fails e, log') => (Fails e, log')
    end.

Notation "x <~~ c ;; k" := (bindU c (fun x => k))
  (at level 100, c at next level, right associativity).

Definition raise {A : Type} (e : utils_exn) : U A := fun log => (Fails e, log).

Definition pure {A : Type} (a : A) : U A := fun log => (Done a, log).

(** [d[key]] on an optional member. *)
Definition member {A : Type} (key : string) (value : option A) : U A :=
  match value with
  | Some a => pure a
  | None => raise (Propagated (KeyError key))
  end.

(** [not athena_result]: [None] and the empty string are falsy. *)
Definition no_result (athena_result : option string) : bool :=
  match athena_result with
  | None | Some EmptyString => true
  | Some _ => false
  end.

Definition query (athena_runner : AthenaRunner) (query_str job_name : string)
  : U string :=
  athena_result <~~
    (fun log =>
       (match run_one athena_runner log query_str job_name with
        | Ok answer => Done answer
        | Failed e => Fails (Propagated e)
        end, log ++ [RunOne query_str job_name])) ;;
  if no_result athena_result then raise (RuntimeError "athena query failed")
  else
    r <~~ (fun log => (Done (last_query_response athena_runner log), log)) ;;
    execution <~~ member "QueryExecution" (QueryExecution r) ;;
    configuration <~~ member "ResultConfiguration" (ResultConfiguration execution) ;;
    location <~~ member "OutputLocation" (OutputLocation configuration) ;;
    pure location.

(** [source_bucket, source_key = pieces] *)
Definition unpack_two (pieces : list string) : U (string * string) :=
  match pieces with
  | [first; second] => pure (first, second)
  | _ => raise (Propagated ValueError)
  end.

(** [target_bucket or source_bucket] *)
Definition or_else (target_bucket : option string) (source_bucket : string) : string :=
  match target_bucket with
  | None | Some EmptyString => source_bucket
  | Some bucket => bucket
  end.

Section QueryTo.

(** [boto3.client('s3')], made when no client is passed. *)
Variable default_s3 : S3Client.

Definition query_to (athena_runner : AthenaRunner)
    (query_str job_name target_key : string)
    (target_bucket : option string) (s3 : option S3Client) : U string :=
  location <~~ query athena_runner query_str job_name ;;
  if String.eqb location EmptyString
  then raise (RuntimeError ("query for " +:+ job_name +:+ " failed, no output location"))
  else
    source <~~ unpack_two (split_once "/" (remove_all "s3://" location)) ;;
    let source_bucket := fst source in
    let source_key := snd source in
    let target_bucket := or_else target_bucket source_bucket in
    let target_location := "s3://" +:+ target_bucket +:+ "/" +:+ target_key in
    let s3 := match s3 with Some given => given | None => default_s3 end in
    fun log =>
      (match copy s3 log source_bucket source_key target_bucket target_key with
       | Ok _ => Done target_location
       | Failed e => Fails (Propagated e)
       end,
       log ++ [Copy source_bucket source_key target_bucket target_key
                 "AES256" "bucket-owner-full-control"]).

End QueryTo.

(** ** Vocabulary of the properties *)

(** The choice step read back from a definition:
    [definition['States']['GoToState']['Choices'][0]['Next']]. *)
Definition redirect_next (state_machine : json) : result json :=
  states <- json_getitem state_machine "States" ;;
  step <- json_getitem states "GoToState" ;;
  choices <- json_getitem step "Choices" ;;
  match choices with
  | JArr items => choice <- list_getitem items 0 ;; json_getitem choice "Next"
  | _ => Raised TypeError
  end.

(** The events the backward walk visits from [current_event_id]: each
    one is found at the negated id, and its back-link names the next. *)
Fixpoint backward_walk (fuel : nat) (failed_event : list HistoryEvent)
    (current_event_id : Z) : list HistoryEvent :=
  if current_event_id =? 0 then []
  else
    match fuel with
    | O => []
    | S fuel' =>
        match list_getitem failed_event (-1 * current_event_id) with
        | Returned event =>
            event ::
              match previousEventId event with
              | Some previous => backward_walk fuel' failed_event previous
              | None => []
              end
        | _ => []
        end
    end.

(** The walk from the failure marker at the head of a page. *)
Definition visited (failed_event : list HistoryEvent) : list HistoryEvent :=
  match failed_event with
  | first :: _ => backward_walk (length failed_event) failed_event (id first)
  | [] => []
  end.

(** The "TaskStateEntered" events of a walk that no "ParallelStateFailed"
    event precedes in it. *)
Fixpoint unshadowed_tasks (walked : list HistoryEvent) : list HistoryEvent :=
  match walked with
  | [] => []
  | event :: earlier =>
      if String.eqb (type event) "ParallelStateFailed" then []
      else if String.eqb (type event) "TaskStateEntered"
           then event :: unshadowed_tasks earlier
           else unshadowed_tasks earlier
  end.

(** The decisions of the loop body along a list of visited events. *)
Fixpoint scan (failed_at_parallel_state : bool) (walked : list HistoryEvent)
  : result walk_exit :=
  match walked with
  | [] => Returned (Exhausted failed_at_parallel_state)
  | current_event :: earlier =>
      let failed_at_parallel_state :=
        if String.eqb (type current_event) "ParallelStateFailed" then true
        else failed_at_parallel_state in
      if String.eqb (type current_event) "TaskStateEntered"
         && negb failed_at_parallel_state
      then
        found <- entered_name_input current_event ;;
        Returned (Found (fst found) (snd found))
      else if String.eqb (type current_event) "ParallelStateEntered"
              && failed_at_parallel_state
      then
        found <- entered_name_input current_event ;;
        Returned (Found (fst found) (snd found))
      else scan failed_at_parallel_state earlier
  end.

(** The "ParallelStateEntered" events of a walk that come after a
    "ParallelStateFailed" event of it. *)
Fixpoint entered_after_failure (walked : list HistoryEvent) : list HistoryEvent :=
  match walked with
  | [] => []
  | event :: earlier =>
      if String.eqb (type event) "ParallelStateFailed"
      then List.filter
             (fun e : HistoryEvent => String.eqb (type e) "ParallelStateEntered")
             earlier
      else entered_after_failure earlier
  end.

(** Whether the character occurs in the string. *)
Fixpoint occurs (c : ascii) (s : string) : bool :=
  match s with
  | EmptyString => false
  | String c' rest => Ascii.eqb c' c || occurs c rest
  end.

(** The event with id [i] sits at position [length - i]. *)
Definition ids_by_position (failed_event : list HistoryEvent) : Prop :=
  forall (i : nat) (event : HistoryEvent),
    failed_event !! i = Some event ->
    id event = Z.of_nat (length failed_event) - Z.of_nat i.

(** Every back-link is present and strictly below the id, down to 0. *)
Definition links_decrease (failed_event : list HistoryEvent) : Prop :=
  forall event : HistoryEvent,
    event ∈ failed_event ->
    exists previous : Z,
      previousEventId event = Some previous /\ 0 <= previous < id event.

(** The failure marker of the general case: failure details whose error
    tag is not the runtime one. *)
Definition general_failure (first : HistoryEvent) : Prop :=
  exists (details : ExecutionFailedEventDetails) (tag : string),
    executionFailedEventDetails first = Some details /\
    error details = Some tag /\
    tag <> "States.Runtime".

Definition well_formed_page (failed_event : list HistoryEvent) : Prop :=
  (exists first : HistoryEvent,
     failed_event !! 0%nat = Some first /\ general_failure first) /\
  ids_by_position failed_event /\
  links_decrease failed_event.

(** ** Sample data *)

(** A definition whose entry step already carries the reserved name, as
    the definition of a resuming machine does. *)
Definition resumed_once : json :=
  JObj (<["StartAt" := JStr "GoToState"]>
       (<["States" :=
            JObj (<["GoToState" := go_to_state (JStr "A") "B"]>
                 (<["A" := JObj (<["Type" := JStr "Pass"]> (<["Next" := JStr "B"]> ∅))]>
                 (<["B" := JObj (<["Type" := JStr "Succeed"]> ∅)]> ∅)))]> ∅)).

Definition sample_source : json :=
  JObj (<["StartAt" := JStr "A"]>
       (<["States" :=
            JObj (<["A" := JObj (<["Type" := JStr "Pass"]> (<["Next" := JStr "B"]> ∅))]>
                 (<["B" := JObj (<["Type" := JStr "Succeed"]> ∅)]> ∅))]> ∅)).

(** Stand-ins for [json.loads] and [json.dumps] on the two documents
    above, which the text names. *)
Definition sample_loads (text : string) : reply json :=
  if String.eqb text "source" then Ok sample_source
  else if String.eqb text "resumed" then Ok resumed_once
  else Failed ValueError.

Definition sample_dumps (document : json) : string :=
  match json_getitem document "StartAt" with
  | Returned (JStr start_at) => "definition starting at " +:+ start_at
  | _ => "document"
  end.

(** A service that holds one machine and accepts every call. *)
Definition sample_client (definition_text : string) (history : list fetched) : Client := {|
  get_execution_history := fun _ _ => history;
  describe_state_machine := fun _ _ =>
    Ok {| machine_name := "MyMachine";
          roleArn := "arn:aws:iam::123:role/states";
          definition := definition_text |};
  create_state_machine := fun _ new_name _ _ =>
    Ok {| stateMachineArn := "arn:aws:states:us-east-1:123:stateMachine:" +:+ new_name |};
  start_execution := fun _ _ _ => Ok tt
|}.

(** A service whose [start_execution] is refused. *)
Definition refusing_client : Client := {|
  get_execution_history := fun _ _ => [FetchError (ClientError "ExecutionDoesNotExist")];
  describe_state_machine := fun _ _ => Failed (ClientError "StateMachineDoesNotExist");
  create_state_machine := fun _ _ _ _ => Failed (ClientError "AccessDeniedException");
  start_execution := fun _ _ _ => Failed (ClientError "ExecutionLimitExceeded")
|}.

(** Histories, newest event first. *)
Definition plain_event (event_id : Z) (event_type : string) (previous : Z)
  : HistoryEvent := {|
  id := event_id;
  type := event_type;
  previousEventId := Some previous;
  executionFailedEventDetails := None;
  stateEnteredEventDetails := None
|}.

Definition entered_event (event_id : Z) (event_type : string) (previous : Z)
    (state input_text : string) : HistoryEvent := {|
  id := event_id;
  type := event_type;
  previousEventId := Some previous;
  executionFailedEventDetails := None;
  stateEnteredEventDetails := Some {| name := state; input := Some input_text |}
|}.

Definition failed_event_marker (event_id previous : Z) (tag message : string)
  : HistoryEvent := {|
  id := event_id;
  type := "ExecutionFailed";
  previousEventId := Some previous;
  executionFailedEventDetails :=
    Some {| error := Some tag; cause := Some message |};
  stateEnteredEventDetails := None
|}.

(** A task that failed after a pass state. *)
Definition task_history : list HistoryEvent :=
  [ failed_event_marker 7 6 "States.TaskFailed" "the task failed";
    plain_event 6 "TaskFailed" 5;
    plain_event 5 "TaskScheduled" 4;
    entered_event 4 "TaskStateEntered" 3 "B" "{}";
    plain_event 3 "PassStateExited" 2;
    entered_event 2 "PassStateEntered" 0 "A" "{}";
    plain_event 1 "ExecutionStarted" 0 ].

(** A task that failed inside a parallel state. *)
Definition parallel_history : list HistoryEvent :=
  [ failed_event_marker 7 6 "States.TaskFailed" "the branch failed";
    plain_event 6 "ParallelStateFailed" 5;
    plain_event 5 "TaskFailed" 4;
    entered_event 4 "TaskStateEntered" 3 "Inner" "[]";
    plain_event 3 "ParallelStateStarted" 2;
    entered_event 2 "ParallelStateEntered" 0 "Fanout" "{}";
    plain_event 1 "ExecutionStarted" 0 ].

(** An execution ended by a fail state: no task and no parallel state was
    ever entered. *)
Definition fail_state_history : list HistoryEvent :=
  [ failed_event_marker 3 2 "Rejected" "the order was rejected";
    entered_event 2 "FailStateEntered" 0 "Reject" "{}";
    plain_event 1 "ExecutionStarted" 0 ].

(** A runtime error raised in the state entered at event 4.  The cause
    has the wording of the service, whose fourteenth token carries the
    event id. *)
Definition runtime_cause : string :=
  "An error occurred while executing the state 'B' (entered at the event id #4). The function is in another region.".

Definition runtime_history : list HistoryEvent :=
  [ failed_event_marker 6 5 "States.Runtime" runtime_cause;
    plain_event 5 "TaskScheduled" 4;
    entered_event 4 "TaskStateEntered" 3 "B" "{}";
    plain_event 3 "PassStateExited" 2;
    entered_event 2 "PassStateEntered" 0 "A" "{}";
    plain_event 1 "ExecutionStarted" 0 ].

Definition sample_arn : string :=
  "arn:aws:states:us-east-1:123:execution:MyMachine:exec1".

(** The number of times the character occurs in the string. *)
Fixpoint count_char (c : ascii) (s : string) : nat :=
  match s with
  | EmptyString => O
  | String c' rest =>
      if Ascii.eqb c' c then S (count_char c rest) else count_char c rest
  end.

(** The events whose entry the locator may report. *)
Definition reported_by (failed_event : list HistoryEvent)
    (failed_state failed_input : string) : Prop :=
  exists (event : HistoryEvent) (details : StateEnteredEventDetails),
    event ∈ failed_event /\
    (type event = "TaskStateEntered" \/ type event = "ParallelStateEntered") /\
    stateEnteredEventDetails event = Some details /\
    name details = failed_state /\
    input details = Some failed_input.

(** The head of the first page of a history longer than the page. *)
Definition truncated_history : list HistoryEvent :=
  [ failed_event_marker 1203 1202 "States.TaskFailed" "the task failed";
    plain_event 1202 "TaskFailed" 1201;
    plain_event 1201 "TaskScheduled" 1200 ].

(** A page whose only event names itself as its predecessor. *)
Definition self_linked_history : list HistoryEvent :=
  [ failed_event_marker 1 1 "States.TaskFailed" "the task failed" ].

(** A page whose head is not a failure marker. *)
Definition succeeded_history : list HistoryEvent :=
  [ plain_event 2 "ExecutionSucceeded" 1;
    plain_event 1 "ExecutionStarted" 0 ].

(** The definitions the mutation of lines 94-103 accepts: a dictionary
    with a ['StartAt'] and a dictionary under ['States']. *)
Definition resumable (state_machine : json) : Prop :=
  exists (members states : gmap string json) (original_start_at : json),
    state_machine = JObj members /\
    members !! "StartAt" = Some original_start_at /\
    members !! "States" = Some (JObj states).

(** [definition['States']['GoToState']['Default']] *)
Definition redirect_default (state_machine : json) : result json :=
  states <- json_getitem state_machine "States" ;;
  step <- json_getitem states "GoToState" ;;
  json_getitem step "Default".

(** Whether a reference, a string, names a member of ['States']. *)
Definition resolves (state_machine : json) (reference : result json) : Prop :=
  exists (step_name : string) (states : gmap string json),
    reference = Returned (JStr step_name) /\
    json_getitem state_machine "States" = Returned (JObj states) /\
    is_Some (states !! step_name).

(** A definition with members besides the two the script reads. *)
Definition commented_source : json :=
  JObj (<["Comment" := JStr "orders"]>
       (<["TimeoutSeconds" := JInt 300]>
       (<["StartAt" := JStr "A"]>
       (<["States" :=
            JObj (<["A" := JObj (<["Type" := JStr "Pass"]> (<["Next" := JStr "B"]> ∅))]>
                 (<["B" := JObj (<["Type" := JStr "Succeed"]> ∅)]> ∅))]> ∅)))).

(** A definition without ['States']. *)
Definition stateless_source : json :=
  JObj (<["StartAt" := JStr "A"]> ∅).

(** A stand-in for [json.loads] on the text of the definition above. *)
Definition stateless_loads (text : string) : reply json :=
  if String.eqb text "stateless" then Ok stateless_source else Failed ValueError.


(** A runner whose query succeeds and whose results are at [location]. *)
Definition sample_runner (athena_result : option string) (location : option string)
  : AthenaRunner := {|
  run_one := fun _ _ _ => Ok athena_result;
  last_query_response := fun _ =>
    {| QueryExecution :=
         Some {| ResultConfiguration :=
                   Some {| OutputLocation := location |} |} |}
|}.

(** A storage client that accepts every copy, and one that refuses. *)
Definition sample_s3 : S3Client := {| copy := fun _ _ _ _ _ => Ok tt |}.


(** Tactics for the well-formedness of a literal history. *)
Ltac by_position :=
  let i := fresh "i" in
  let event := fresh "event" in
  let H := fresh "H" in
  intros i event H;
  repeat (destruct i as [| i]; [injection H as <-; reflexivity |]);
  discriminate H.

Ltac by_link :=
  let event := fresh "event" in
  let H := fresh "H" in
  intros event H;
  repeat (apply elem_of_cons in H as [-> | H];
          [eexists; split; [reflexivity | simpl; lia] |]);
  by apply elem_of_nil in H.

Ltac by_marker :=
  eexists; split; [reflexivity |];
  eexists _, _; split; [reflexivity |]; split; [reflexivity | discriminate].

(** * Properties *)

(** ** Results *)

Lemma getitem_key_Returned {A : Type} (key : string) (member : option A) (a : A) :
  getitem_key key member = Returned a <-> member = Some a.
Proof. destruct member; simpl; split; congruence. Qed.

Lemma json_getitem_Returned (obj : json) (key : string) (value : json) :
  json_getitem obj key = Returned value <->
  exists members : gmap string json, obj = JObj members /\ members !! key = Some value.
Proof.
  split.
  - destruct obj; simpl; try discriminate.
    intros H. apply getitem_key_Returned in H. eauto.
  - intros (members & -> & H). simpl. by rewrite H.
Qed.

(** ** The resume graph builder *)

(** What lines 94-103 make of a definition that has a ['StartAt'] and a
    dictionary under ['States']. *)
Lemma insert_go_to_state_members (members states : gmap string json)
    (original_start_at : json) (failed_state_name : string) :
  members !! "StartAt" = Some original_start_at ->
  members !! "States" = Some (JObj states) ->
  insert_go_to_state (JObj members) failed_state_name =
  Returned
    (JObj (<["StartAt" := JStr "GoToState"]>
          (<["States" :=
               JObj (<["GoToState" := go_to_state original_start_at failed_state_name]>
                       states)]> members))).
Proof.
  intros Hstart Hstates. unfold insert_go_to_state. simpl.
  rewrite Hstart, Hstates. reflexivity.
Qed.

Lemma redirect_next_go_to_state (members states : gmap string json)
    (original_start_at : json) (failed_state_name : string) :
  redirect_next
    (JObj (<["StartAt" := JStr "GoToState"]>
          (<["States" :=
               JObj (<["GoToState" := go_to_state original_start_at failed_state_name]>
                       states)]> members)))
  = Returned original_start_at.
Proof.
  unfold redirect_next. simpl.
  rewrite lookup_insert_ne by discriminate.
  rewrite lookup_insert_eq. simpl.
  rewrite lookup_insert_eq. reflexivity.
Qed.

(** A run of [attach_go_to_state] whose describe call and [json.loads]
    succeed: the definition sent to [create_state_machine] is the dump of
    the mutated one, and a refusal of the service is wrapped. *)
Lemma attach_go_to_state_run (client : Client) (date_time : string)
    (json_loads : string -> reply json) (json_dumps : json -> string)
    (failed_state_name state_machine_arn : string) (log : list request)
    (response : DescribeStateMachineOutput) (source resumed : json) :
  describe_state_machine client log state_machine_arn = Ok response ->
  json_loads (definition response) = Ok source ->
  insert_go_to_state source failed_state_name = Returned resumed ->
  let new_name := machine_name response +:+ "-resumeState-" +:+ date_time in
  let log' := log ++ [DescribeStateMachine state_machine_arn] in
  attach_go_to_state client date_time json_loads json_dumps
    failed_state_name state_machine_arn log
  = (match create_state_machine client log' new_name (json_dumps resumed)
             (roleArn response) with
     | Ok created => Returned created
     | Failed e =>
         Raised (Exception "Failed to create new state machine with GoToState: "
                   (ArgExn e))
     end,
     log' ++ [CreateStateMachine new_name (json_dumps resumed) (roleArn response)]).
Proof.
  intros Hdescribe Hloads Hinsert new_name log'.
  unfold attach_go_to_state, bindM, try_except, call, lift.
  rewrite Hdescribe, Hloads, Hinsert.
  fold log' new_name.
  by destruct (create_state_machine client log' new_name (json_dumps resumed)
                 (roleArn response)).
Qed.

(** C4. For the source definition [{"StartAt": "A", "States": {"A": a,
    "B": b}}] and the failed step ["B"], the builder makes the definition
    whose [StartAt] is ["GoToState"] and whose [States] holds [a] under
    ["A"], [b] under ["B"], and under ["GoToState"] the choice step
    [{"Type": "Choice", "Choices": [{"Variable": "$.resuming",
    "BooleanEquals": false, "Next": "A"}], "Default": "B"}]; this is the
    definition whose dump it sends to [create_state_machine]. *)
Theorem attach_go_to_state_A_B (client : Client) (date_time : string)
    (json_loads : string -> reply json) (json_dumps : json -> string)
    (state_machine_arn : string) (log : list request)
    (response : DescribeStateMachineOutput) (a b : json) :
  let source :=
    JObj (<["StartAt" := JStr "A"]>
         (<["States" := JObj (<["A" := a]> (<["B" := b]> ∅))]> ∅)) in
  let resumed :=
    JObj (<["StartAt" := JStr "GoToState"]>
         (<["States" :=
              JObj (<["A" := a]> (<["B" := b]>
                   (<["GoToState" :=
                        JObj (<["Type" := JStr "Choice"]>
                             (<["Choices" :=
                                  JArr [JObj (<["Variable" := JStr "$.resuming"]>
                                             (<["BooleanEquals" := JBool false]>
                                             (<["Next" := JStr "A"]> ∅)))]]>
                             (<["Default" := JStr "B"]> ∅)))]> ∅)))]> ∅)) in
  describe_state_machine client log state_machine_arn = Ok response ->
  json_loads (definition response) = Ok source ->
  insert_go_to_state source "B" = Returned resumed /\
  snd (attach_go_to_state client date_time json_loads json_dumps
         "B" state_machine_arn log)
  = log ++ [DescribeStateMachine state_machine_arn;
            CreateStateMachine
              (machine_name response +:+ "-resumeState-" +:+ date_time)
              (json_dumps resumed) (roleArn response)].
Proof.
  intros source resumed Hdescribe Hloads.
  assert (Hinsert : insert_go_to_state source "B" = Returned resumed).
  { unfold source, resumed.
    rewrite (insert_go_to_state_members _ (<["A" := a]> (<["B" := b]> ∅))
               (JStr "A") "B") by reflexivity.
    reflexivity. }
  split; [exact Hinsert |].
  rewrite (attach_go_to_state_run _ _ _ _ _ _ _ _ _ _ Hdescribe Hloads Hinsert).
  simpl. by rewrite <- app_assoc.
Qed.

Lemma attach_go_to_state_A_B_witness :
  snd (attach_go_to_state (sample_client "source" []) "20240131-1405"
         sample_loads sample_dumps "B"
         "arn:aws:states:us-east-1:123:stateMachine:MyMachine" [])
  = [DescribeStateMachine "arn:aws:states:us-east-1:123:stateMachine:MyMachine";
     CreateStateMachine "MyMachine-resumeState-20240131-1405"
       "definition starting at GoToState" "arn:aws:iam::123:role/states"].
Proof.
  exact (proj2 (attach_go_to_state_A_B (sample_client "source" []) "20240131-1405"
                  sample_loads sample_dumps
                  "arn:aws:states:us-east-1:123:stateMachine:MyMachine" []
                  _ _ _ eq_refl eq_refl)).
Defined.

(** C5 (amended). For every source definition that has a [StartAt] and a
    dictionary of [States], and every failed step name, the [Next] of the
    single choice of the injected step is the [StartAt] the source had
    before the mutation, while the new [StartAt] is ["GoToState"]; the two
    coincide exactly when the source already started at ["GoToState"]. *)
Theorem redirect_next_is_original_start_at (source original_start_at : json)
    (states : gmap string json) (failed_state_name : string) :
  json_getitem source "StartAt" = Returned original_start_at ->
  json_getitem source "States" = Returned (JObj states) ->
  exists resumed : json,
    insert_go_to_state source failed_state_name = Returned resumed /\
    redirect_next resumed = Returned original_start_at /\
    json_getitem resumed "StartAt" = Returned (JStr "GoToState") /\
    (redirect_next resumed = json_getitem resumed "StartAt" <->
     original_start_at = JStr "GoToState").
Proof.
  intros Hstart Hstates.
  apply json_getitem_Returned in Hstart as (members & -> & Hstart).
  apply json_getitem_Returned in Hstates as (members' & [= <-] & Hstates).
  eexists. split; [by apply insert_go_to_state_members |].
  rewrite redirect_next_go_to_state. simpl. rewrite lookup_insert_eq. simpl.
  repeat split; congruence.
Qed.

Lemma redirect_next_is_original_start_at_witness :
  exists resumed : json,
    insert_go_to_state sample_source "B" = Returned resumed /\
    redirect_next resumed = Returned (JStr "A") /\
    json_getitem resumed "StartAt" = Returned (JStr "GoToState") /\
    (redirect_next resumed = json_getitem resumed "StartAt" <->
     JStr "A" = JStr "GoToState").
Proof.
  exact (redirect_next_is_original_start_at sample_source (JStr "A") _ "B"
           eq_refl eq_refl).
Defined.

(** C5 as stated fails on a definition that already starts at
    ["GoToState"]: the injected [Next] is then the new [StartAt]. *)
Lemma redirect_next_equals_new_start_at :
  exists resumed : json,
    insert_go_to_state resumed_once "B" = Returned resumed /\
    redirect_next resumed = Returned (JStr "GoToState") /\
    json_getitem resumed "StartAt" = Returned (JStr "GoToState").
Proof. eexists. split; [reflexivity |]. split; reflexivity. Qed.

(** C10. When the [States] of the source definition already has a member
    ["GoToState"], the builder raises nothing of its own: the member is
    replaced by the choice step [{"Type": "Choice", "Choices":
    [{"Variable": "$.resuming", "BooleanEquals": false, "Next": <the
    original StartAt>}], "Default": <the failed step name>}], every other
    member of [States] is as it was, no key is added or removed, and the
    dump of that definition is what [create_state_machine] receives. *)
Theorem go_to_state_overwrites_reserved_key (client : Client) (date_time : string)
    (json_loads : string -> reply json) (json_dumps : json -> string)
    (failed_state_name state_machine_arn : string) (log : list request)
    (response : DescribeStateMachineOutput)
    (source original_start_at taken : json) (states : gmap string json) :
  describe_state_machine client log state_machine_arn = Ok response ->
  json_loads (definition response) = Ok source ->
  json_getitem source "StartAt" = Returned original_start_at ->
  json_getitem source "States" = Returned (JObj states) ->
  states !! "GoToState" = Some taken ->
  exists (resumed : json) (states' : gmap string json),
    insert_go_to_state source failed_state_name = Returned resumed /\
    json_getitem resumed "States" = Returned (JObj states') /\
    states' !! "GoToState"
    = Some (JObj (<["Type" := JStr "Choice"]>
                (<["Choices" :=
                     JArr [JObj (<["Variable" := JStr "$.resuming"]>
                                (<["BooleanEquals" := JBool false]>
                                (<["Next" := original_start_at]> ∅)))]]>
                (<["Default" := JStr failed_state_name]> ∅)))) /\
    (forall key : string, key <> "GoToState" -> states' !! key = states !! key) /\
    dom states' = dom states /\
    let new_name := machine_name response +:+ "-resumeState-" +:+ date_time in
    let log' := log ++ [DescribeStateMachine state_machine_arn] in
    attach_go_to_state client date_time json_loads json_dumps
      failed_state_name state_machine_arn log
    = (match create_state_machine client log' new_name (json_dumps resumed)
               (roleArn response) with
       | Ok created => Returned created
       | Failed e =>
           Raised (Exception "Failed to create new state machine with GoToState: "
                     (ArgExn e))
       end,
       log' ++ [CreateStateMachine new_name (json_dumps resumed) (roleArn response)]).
Proof.
  intros Hdescribe Hloads Hstart Hstates Htaken.
  apply json_getitem_Returned in Hstart as (members & -> & Hstart).
  apply json_getitem_Returned in Hstates as (members' & [= <-] & Hstates).
  pose proof (insert_go_to_state_members _ _ _ failed_state_name Hstart Hstates)
    as Hinsert.
  eexists _, _. split; [exact Hinsert |].
  split.
  { simpl. rewrite lookup_insert_ne by discriminate.
    rewrite lookup_insert_eq. reflexivity. }
  split; [apply lookup_insert_eq |].
  split; [intros key Hkey; by apply lookup_insert_ne |].
  split.
  { rewrite dom_insert_L.
    apply subseteq_union_1_L, singleton_subseteq_l, elem_of_dom. eauto. }
  exact (attach_go_to_state_run _ _ _ _ _ _ _ _ _ _ Hdescribe Hloads Hinsert).
Qed.

Lemma go_to_state_overwrites_reserved_key_witness :
  exists (resumed : json) (states' : gmap string json),
    insert_go_to_state resumed_once "B" = Returned resumed /\
    json_getitem resumed "States" = Returned (JObj states') /\
    states' !! "GoToState"
    = Some (JObj (<["Type" := JStr "Choice"]>
                (<["Choices" :=
                     JArr [JObj (<["Variable" := JStr "$.resuming"]>
                                (<["BooleanEquals" := JBool false]>
                                (<["Next" := JStr "GoToState"]> ∅)))]]>
                (<["Default" := JStr "B"]> ∅)))) /\
    states' !! "A" =
      Some (JObj (<["Type" := JStr "Pass"]> (<["Next" := JStr "B"]> ∅))).
Proof.
  destruct (go_to_state_overwrites_reserved_key
              (sample_client "resumed" []) "20240131-1405" sample_loads sample_dumps
              "B" "arn:aws:states:us-east-1:123:stateMachine:MyMachine" []
              _ resumed_once (JStr "GoToState") (go_to_state (JStr "A") "B") _
              eq_refl eq_refl eq_refl eq_refl eq_refl)
    as (resumed & states' & Hinsert & Hstates & Hstep & Hothers & _).
  exists resumed, states'.
  repeat split; try assumption.
  rewrite Hothers by discriminate. reflexivity.
Defined.

(** ** The state-machine identifier *)

Lemma split_free (sep : ascii) (piece : string) :
  occurs sep piece = false -> split sep piece = [piece].
Proof.
  induction piece as [| c piece IH]; [reflexivity |].
  cbn [occurs split]. intros Hfree. apply orb_false_elim in Hfree as [-> Hfree].
  by rewrite (IH Hfree).
Qed.

Lemma split_piece (sep : ascii) (piece rest : string) :
  occurs sep piece = false ->
  split sep (piece +:+ String sep rest) = piece :: split sep rest.
Proof.
  induction piece as [| c piece IH]; intros Hfree.
  - simpl. by rewrite Ascii.eqb_refl.
  - cbn [occurs] in Hfree. apply orb_false_elim in Hfree as [Hc Hfree].
    simpl. by rewrite Hc, (IH Hfree).
Qed.

(** Splitting undoes joining when no piece holds the separator. *)
Lemma split_join (sep : ascii) (pieces : list string) :
  pieces <> [] ->
  Forall (fun piece : string => occurs sep piece = false) pieces ->
  split sep (join (String sep EmptyString) pieces) = pieces.
Proof.
  intros Hsome Hfree.
  induction Hfree as [| piece pieces Hpiece Hfree IH]; [done |].
  destruct pieces as [| piece' pieces].
  - by apply split_free.
  - cbn [join]. cbn [join] in IH.
    change (String sep EmptyString +:+ ?tail) with (String sep tail).
    rewrite split_piece by assumption. by rewrite IH.
Qed.

(** For colon-free components, six of them at least before the last, the
    derived identifier drops the last component and writes
    ["stateMachine"] over the sixth. *)
Lemma state_machine_arn_of_components (components : list string) :
  (7 <= length components)%nat ->
  Forall (fun piece : string => occurs ":" piece = false) components ->
  get_state_machine_arn_from_execution_arn (join ":" components)
  = Returned (join ":" (<[5%nat := "stateMachine"]> (drop_last components))).
Proof.
  intros Hlength Hfree.
  unfold get_state_machine_arn_from_execution_arn.
  rewrite split_join; [| intros -> | assumption].
  - unfold list_setitem, drop_last.
    destruct (decide (5 < length (take (length components - 1) components))%nat)
      as [_ | Hshort]; [reflexivity |].
    rewrite length_take in Hshort. lia.
  - simpl in Hlength. lia.
Qed.

(** C8. The execution identifier
    [arn:aws:states:us-east-1:123:execution:MyMachine:exec1] yields the
    state-machine identifier
    [arn:aws:states:us-east-1:123:stateMachine:MyMachine]. *)
Theorem state_machine_arn_of_execution_arn :
  get_state_machine_arn_from_execution_arn
    "arn:aws:states:us-east-1:123:execution:MyMachine:exec1"
  = Returned "arn:aws:states:us-east-1:123:stateMachine:MyMachine".
Proof. reflexivity. Qed.

(** ** The execution trigger *)

(** C9. For every machine identifier the trigger makes one call,
    [start_execution] on that machine with the text [{"resuming": true}]
    as input; when the service refuses the call with [e], the trigger
    raises the exception whose message wraps [e], and otherwise it
    returns. *)
Theorem start_new_state_machine_execution_run (client : Client)
    (new_machine_arn : string) (log : list request) :
  start_new_state_machine_execution client new_machine_arn log
  = (match start_execution client log new_machine_arn resuming_input with
     | Ok _ => Returned tt
     | Failed e => Raised (Exception "Failed to start Execution: " (ArgExn e))
     end,
     log ++ [StartExecution new_machine_arn resuming_input])
  /\ resuming_input
     = "{" +:+ String (ascii_of_nat 34) "resuming"
           +:+ String (ascii_of_nat 34) ": true}".
Proof.
  split; [| reflexivity].
  unfold start_new_state_machine_execution, bindM, try_except, call, retM.
  by destruct (start_execution client log new_machine_arn resuming_input).
Qed.

Example start_refused :
  start_new_state_machine_execution refusing_client sample_arn []
  = (Raised (Exception "Failed to start Execution: "
               (ArgExn (ClientError "ExecutionLimitExceeded"))),
     [StartExecution sample_arn resuming_input]).
Proof. reflexivity. Qed.

(** ** The failure locator *)

Lemma walk_unfold (fuel : nat) (failed_event : list HistoryEvent)
    (failed_at_parallel_state : bool) (current_event_id : Z) :
  walk fuel failed_event failed_at_parallel_state current_event_id =
  if current_event_id =? 0 then Returned (Exhausted failed_at_parallel_state)
  else
    match fuel with
    | O => OutOfFuel
    | S fuel' =>
        current_event <- list_getitem failed_event (-1 * current_event_id) ;;
        let flag :=
          if String.eqb (type current_event) "ParallelStateFailed" then true
          else failed_at_parallel_state in
        if String.eqb (type current_event) "TaskStateEntered" && negb flag
        then
          found <- entered_name_input current_event ;;
          Returned (Found (fst found) (snd found))
        else if String.eqb (type current_event) "ParallelStateEntered" && flag
        then
          found <- entered_name_input current_event ;;
          Returned (Found (fst found) (snd found))
        else
          previous <- getitem_key "previousEventId" (previousEventId current_event) ;;
          walk fuel' failed_event flag previous
    end.
Proof. destruct fuel; reflexivity. Qed.

Lemma backward_walk_unfold (fuel : nat) (failed_event : list HistoryEvent)
    (current_event_id : Z) :
  backward_walk fuel failed_event current_event_id =
  if current_event_id =? 0 then []
  else
    match fuel with
    | O => []
    | S fuel' =>
        match list_getitem failed_event (-1 * current_event_id) with
        | Returned event =>
            event ::
              match previousEventId event with
              | Some previous => backward_walk fuel' failed_event previous
              | None => []
              end
        | _ => []
        end
    end.
Proof. destruct fuel; reflexivity. Qed.

Lemma list_getitem_head {A : Type} (x : A) (l : list A) :
  list_getitem (x :: l) 0 = Returned x.
Proof.
  unfold list_getitem. cbn [Z.ltb Z.compare orb].
  destruct (Z.leb_spec (Z.of_nat (length (x :: l))) 0) as [H | _]; [| reflexivity].
  simpl length in H. lia.
Qed.

Section LaidOutPage.

(** A page laid out by id whose back-links decrease. *)
Variable failed_event : list HistoryEvent.
Hypothesis Hids : ids_by_position failed_event.
Hypothesis Hlinks : links_decrease failed_event.

(** Indexing by the negated id finds the event that carries the id. *)
Lemma list_getitem_by_id (current_event_id : Z) :
  1 <= current_event_id <= Z.of_nat (length failed_event) ->
  exists event : HistoryEvent,
    list_getitem failed_event (-1 * current_event_id) = Returned event /\
    id event = current_event_id /\
    event ∈ failed_event.
Proof.
  intros Hrange. unfold list_getitem.
  set (n := Z.of_nat (length failed_event)) in *.
  destruct (Z.ltb_spec (-1 * current_event_id) 0) as [_ | ?]; [| lia].
  destruct (Z.ltb_spec (-1 * current_event_id + n) 0) as [? | _]; [lia |].
  destruct (Z.leb_spec n (-1 * current_event_id + n)) as [? | _]; [lia |].
  simpl.
  destruct (lookup_lt_is_Some_2 failed_event
              (Z.to_nat (-1 * current_event_id + n))) as [event Hevent]; [lia |].
  rewrite Hevent. exists event. split; [reflexivity |]. split.
  - rewrite (Hids _ _ Hevent). fold n. lia.
  - eapply list_elem_of_lookup_2. exact Hevent.
Qed.

(** The loop decides as [scan] does on the events of the backward walk,
    given fuel for one step per id. *)
Lemma walk_scan (fuel fuel' : nat) (flag : bool) (current_event_id : Z) :
  0 <= current_event_id <= Z.of_nat (length failed_event) ->
  (Z.to_nat current_event_id <= fuel)%nat ->
  (Z.to_nat current_event_id <= fuel')%nat ->
  walk fuel failed_event flag current_event_id
  = scan flag (backward_walk fuel' failed_event current_event_id).
Proof.
  revert fuel' flag current_event_id.
  induction fuel as [| fuel IH]; intros fuel' flag cur Hrange Hfuel Hfuel';
    rewrite walk_unfold, backward_walk_unfold;
    destruct (Z.eqb_spec cur 0) as [-> | Hcur]; try reflexivity; [lia |].
  destruct fuel' as [| fuel']; [lia |].
  destruct (list_getitem_by_id cur) as (event & -> & Hid & Hin); [lia |].
  destruct (Hlinks event Hin) as (previous & Hprevious & Hbelow).
  rewrite Hprevious. simpl.
  destruct (String.eqb (type event) "TaskStateEntered" && _); [reflexivity |].
  destruct (String.eqb (type event) "ParallelStateEntered" && _); [reflexivity |].
  rewrite Hprevious. simpl. apply IH; lia.
Qed.

End LaidOutPage.

(** The general case on a well-formed first page. *)
Lemma parse_pages_general (fuel : nat) (flag : bool)
    (failed_event : list HistoryEvent) (rest : list fetched) :
  well_formed_page failed_event ->
  (length failed_event <= fuel)%nat ->
  parse_pages fuel flag (Page failed_event :: rest)
  = (exit <- scan flag (visited failed_event) ;;
     match exit with
     | Found failed_state failed_input => Returned (Some (failed_state, failed_input))
     | Exhausted flag' => parse_pages fuel flag' rest
     end).
Proof.
  intros ((first & Hfirst & details & tag & Hdetails & Htag & Hgeneral)
          & Hids & Hlinks) Hfuel.
  destruct failed_event as [| first' events]; [discriminate |].
  injection Hfirst as ->.
  pose proof (Hids 0%nat first eq_refl) as Hid.
  cbn [parse_pages length Nat.ltb Nat.leb].
  rewrite list_getitem_head. cbn [bind getitem_key].
  rewrite Hdetails. cbn [bind getitem_key].
  unfold details_empty. rewrite Htag. cbn [bind getitem_key].
  apply String.eqb_neq in Hgeneral. rewrite Hgeneral.
  unfold visited.
  rewrite (walk_scan _ Hids Hlinks fuel (length (first :: events)) flag (id first));
    [reflexivity | lia..].
Qed.

Lemma scan_unshadowed_task (walked : list HistoryEvent) (task : HistoryEvent)
    (failed_state failed_input : string) :
  unshadowed_tasks walked = [task] ->
  entered_name_input task = Returned (failed_state, failed_input) ->
  scan false walked = Returned (Found failed_state failed_input).
Proof.
  intros Hone Htask.
  induction walked as [| event earlier IH]; [discriminate |].
  cbn [unshadowed_tasks scan] in *.
  destruct (String.eqb (type event) "ParallelStateFailed"); [discriminate |].
  destruct (String.eqb (type event) "TaskStateEntered").
  - injection Hone as -> _. simpl. rewrite Htask. reflexivity.
  - rewrite andb_false_r. simpl. auto.
Qed.

Lemma scan_before_failure (walked later : list HistoryEvent) :
  Forall (fun event : HistoryEvent =>
            type event <> "TaskStateEntered" /\
            type event <> "ParallelStateFailed") walked ->
  scan false (walked ++ later) = scan false later.
Proof.
  induction 1 as [| event walked [Htask Hfailed] _ IH]; [reflexivity |].
  apply String.eqb_neq in Htask, Hfailed.
  cbn [app scan]. rewrite Htask, Hfailed, andb_false_r. exact IH.
Qed.

Lemma scan_inside_failure (walked later : list HistoryEvent) :
  Forall (fun event : HistoryEvent => type event <> "ParallelStateEntered") walked ->
  scan true (walked ++ later) = scan true later.
Proof.
  induction 1 as [| event walked Hentered _ IH]; [reflexivity |].
  apply String.eqb_neq in Hentered.
  cbn [app scan]. rewrite Hentered.
  destruct (String.eqb (type event) "ParallelStateFailed");
    rewrite andb_false_r; exact IH.
Qed.

Lemma entered_name_input_Returned (event : HistoryEvent)
    (details : StateEnteredEventDetails) (payload : string) :
  stateEnteredEventDetails event = Some details ->
  input details = Some payload ->
  entered_name_input event = Returned (name details, payload).
Proof.
  intros Hdetails Hinput. unfold entered_name_input.
  rewrite Hdetails. simpl. rewrite Hinput. reflexivity.
Qed.

Lemma task_history_well_formed : well_formed_page task_history.
Proof. split; [by_marker |]. split; [by_position | by_link]. Qed.

Lemma parallel_history_well_formed : well_formed_page parallel_history.
Proof. split; [by_marker |]. split; [by_position | by_link]. Qed.

Lemma fail_state_history_well_formed : well_formed_page fail_state_history.
Proof. split; [by_marker |]. split; [by_position | by_link]. Qed.

Lemma parse_failure_history_pages (client : Client) (fuel : nat)
    (failed_execution_arn : string) (log : list request) :
  parse_failure_history client fuel failed_execution_arn log
  = (parse_pages fuel false (get_execution_history client log failed_execution_arn),
     log ++ [GetExecutionHistory failed_execution_arn true true 1000]).
Proof. reflexivity. Qed.

(** C1. On a non-empty well-formed first page (general failure marker at
    the head, the event with id [i] at position [length - i], back-links
    strictly decreasing to 0) whose backward walk has exactly one
    "TaskStateEntered" event that no "ParallelStateFailed" event precedes
    in it, the locator returns the name and the input of that event, for
    every fuel of at least the page's length. *)
Theorem parse_failure_history_unshadowed_task (client : Client) (fuel : nat)
    (failed_execution_arn : string) (log : list request)
    (failed_event : list HistoryEvent) (rest : list fetched)
    (task : HistoryEvent) (details : StateEnteredEventDetails) (payload : string) :
  get_execution_history client log failed_execution_arn = Page failed_event :: rest ->
  well_formed_page failed_event ->
  unshadowed_tasks (visited failed_event) = [task] ->
  stateEnteredEventDetails task = Some details ->
  input details = Some payload ->
  (length failed_event <= fuel)%nat ->
  fst (parse_failure_history client fuel failed_execution_arn log)
  = Returned (Some (name details, payload)).
Proof.
  intros Hhistory Hwf Hone Hdetails Hinput Hfuel.
  rewrite parse_failure_history_pages, Hhistory. cbn [fst].
  rewrite parse_pages_general by assumption.
  rewrite (scan_unshadowed_task _ task (name details) payload);
    [reflexivity | assumption |].
  by apply entered_name_input_Returned.
Qed.

Lemma parse_failure_history_unshadowed_task_witness :
  fst (parse_failure_history (sample_client "source" [Page task_history]) 7
         sample_arn [])
  = Returned (Some ("B", "{}")).
Proof.
  exact (parse_failure_history_unshadowed_task
           (sample_client "source" [Page task_history]) 7 sample_arn []
           task_history [] (entered_event 4 "TaskStateEntered" 3 "B" "{}")
           {| name := "B"; input := Some "{}" |} "{}"
           eq_refl task_history_well_formed eq_refl eq_refl eq_refl
           (le_n 7)).
Defined.

(** C3. On a well-formed first page whose backward walk meets a
    "ParallelStateFailed" event before any "TaskStateEntered" event, and
    after it a first "ParallelStateEntered" event, the locator returns
    the name and the input of that "ParallelStateEntered" event, whatever
    tasks the walk passes in between. *)
Theorem parse_failure_history_failed_parallel (client : Client) (fuel : nat)
    (failed_execution_arn : string) (log : list request)
    (failed_event : list HistoryEvent) (rest : list fetched)
    (before inside after : list HistoryEvent) (failed entered : HistoryEvent)
    (details : StateEnteredEventDetails) (payload : string) :
  get_execution_history client log failed_execution_arn = Page failed_event :: rest ->
  well_formed_page failed_event ->
  visited failed_event = before ++ failed :: inside ++ entered :: after ->
  Forall (fun event : HistoryEvent =>
            type event <> "TaskStateEntered" /\
            type event <> "ParallelStateFailed") before ->
  type failed = "ParallelStateFailed" ->
  Forall (fun event : HistoryEvent => type event <> "ParallelStateEntered") inside ->
  type entered = "ParallelStateEntered" ->
  stateEnteredEventDetails entered = Some details ->
  input details = Some payload ->
  (length failed_event <= fuel)%nat ->
  fst (parse_failure_history client fuel failed_execution_arn log)
  = Returned (Some (name details, payload)).
Proof.
  intros Hhistory Hwf Hwalk Hbefore Hfailed Hinside Hentered Hdetails Hinput Hfuel.
  rewrite parse_failure_history_pages, Hhistory. cbn [fst].
  rewrite parse_pages_general by assumption.
  rewrite Hwalk, scan_before_failure by assumption.
  cbn [scan]. rewrite Hfailed. cbn [String.eqb Ascii.eqb Bool.eqb andb negb].
  rewrite scan_inside_failure by assumption.
  cbn [scan]. rewrite Hentered. cbn [String.eqb Ascii.eqb Bool.eqb andb negb].
  rewrite (entered_name_input_Returned _ _ _ Hdetails Hinput). reflexivity.
Qed.

Lemma parse_failure_history_failed_parallel_witness :
  fst (parse_failure_history (sample_client "source" [Page parallel_history]) 7
         sample_arn [])
  = Returned (Some ("Fanout", "{}")).
Proof.
  refine (parse_failure_history_failed_parallel
            (sample_client "source" [Page parallel_history]) 7 sample_arn []
            parallel_history []
            [failed_event_marker 7 6 "States.TaskFailed" "the branch failed"]
            [plain_event 5 "TaskFailed" 4;
             entered_event 4 "TaskStateEntered" 3 "Inner" "[]";
             plain_event 3 "ParallelStateStarted" 2]
            []
            (plain_event 6 "ParallelStateFailed" 5)
            (entered_event 2 "ParallelStateEntered" 0 "Fanout" "{}")
            {| name := "Fanout"; input := Some "{}" |} "{}"
            eq_refl parallel_history_well_formed eq_refl _ eq_refl _ eq_refl
            eq_refl eq_refl (le_n 7)).
  - repeat constructor; discriminate.
  - repeat constructor; discriminate.
Defined.



Lemma scan_inside_failure_exhausted (walked : list HistoryEvent) :
  List.filter (fun e : HistoryEvent => String.eqb (type e) "ParallelStateEntered")
    walked = [] ->
  scan true walked = Returned (Exhausted true).
Proof.
  induction walked as [| event earlier IH]; [reflexivity |].
  cbn [List.filter scan].
  destruct (String.eqb (type event) "ParallelStateEntered"); [discriminate |].
  intros Hnone.
  destruct (String.eqb (type event) "ParallelStateFailed");
    rewrite andb_false_r; cbn [andb]; auto.
Qed.

Lemma scan_exhausted (walked : list HistoryEvent) :
  unshadowed_tasks walked = [] ->
  entered_after_failure walked = [] ->
  exists flag : bool, scan false walked = Returned (Exhausted flag).
Proof.
  induction walked as [| event earlier IH]; [by exists false |].
  cbn [unshadowed_tasks entered_after_failure scan].
  destruct (String.eqb (type event) "ParallelStateFailed") eqn:Hfailed.
  - intros _ Hnone. exists true.
    rewrite andb_false_r.
    apply String.eqb_eq in Hfailed. rewrite Hfailed.
    cbn [String.eqb Ascii.eqb Bool.eqb andb].
    by apply scan_inside_failure_exhausted.
  - destruct (String.eqb (type event) "TaskStateEntered"); [discriminate |].
    rewrite andb_false_r. cbn [andb]. exact IH.
Qed.

(** C7, where the code departs from it. When the backward walk over the
    only page reaches id 0 and none of its events qualifies (no
    "TaskStateEntered" event ahead of every "ParallelStateFailed" one, no
    "ParallelStateEntered" event after one), the locator returns [None]
    and raises nothing. *)
Theorem parse_failure_history_walk_exhausted (client : Client) (fuel : nat)
    (failed_execution_arn : string) (log : list request)
    (failed_event : list HistoryEvent) :
  get_execution_history client log failed_execution_arn = [Page failed_event] ->
  well_formed_page failed_event ->
  unshadowed_tasks (visited failed_event) = [] ->
  entered_after_failure (visited failed_event) = [] ->
  (length failed_event <= fuel)%nat ->
  fst (parse_failure_history client fuel failed_execution_arn log) = Returned None.
Proof.
  intros Hhistory Hwf Htasks Hparallels Hfuel.
  destruct (scan_exhausted _ Htasks Hparallels) as [flag Hscan].
  rewrite parse_failure_history_pages, Hhistory. cbn [fst].
  rewrite parse_pages_general by assumption. by rewrite Hscan.
Qed.

Lemma parse_failure_history_walk_exhausted_witness :
  fst (parse_failure_history (sample_client "source" [Page fail_state_history]) 3
         sample_arn [])
  = Returned None.
Proof.
  exact (parse_failure_history_walk_exhausted
           (sample_client "source" [Page fail_state_history]) 3 sample_arn []
           fail_state_history
           eq_refl fail_state_history_well_formed eq_refl eq_refl (le_n 3)).
Defined.

(** With further pages the loop goes on to the next one, the flag kept. *)
Lemma parse_failure_history_next_page (client : Client) (fuel : nat)
    (failed_execution_arn : string) (log : list request)
    (failed_event : list HistoryEvent) (rest : list fetched) (flag : bool) :
  get_execution_history client log failed_execution_arn = Page failed_event :: rest ->
  well_formed_page failed_event ->
  scan false (visited failed_event) = Returned (Exhausted flag) ->
  (length failed_event <= fuel)%nat ->
  fst (parse_failure_history client fuel failed_execution_arn log)
  = parse_pages fuel flag rest.
Proof.
  intros Hhistory Hwf Hscan Hfuel.
  rewrite parse_failure_history_pages, Hhistory. cbn [fst].
  rewrite parse_pages_general by assumption. by rewrite Hscan.
Qed.

(** The caller unpacks the result into two names, so a [None] of the
    locator surfaces there as a [TypeError]. *)
Lemma main_unpacks_None (client : Client) (date_time : string)
    (json_loads : string -> reply json) (json_dumps : json -> string)
    (fuel : nat) (execution_arn : string) (log : list request) :
  fst (parse_failure_history client fuel execution_arn log) = Returned None ->
  fst (main client date_time json_loads json_dumps fuel execution_arn log)
  = Raised TypeError.
Proof.
  unfold main, bindM. intros Hnone.
  destruct (parse_failure_history client fuel execution_arn log) as [outcome log'].
  simpl in Hnone. subst outcome. reflexivity.
Qed.

(** C2, where the code departs from it. The cause of this history has
    the wording of the service and names event 4 in its fourteenth
    token, of which the digits are "4"; the locator raises the
    [TypeError] of [int] applied to the [filter] object at line 59 and
    selects no event, neither the one at position 4 from the head nor the
    one at index -4. *)
Theorem runtime_error_raises_at_conversion :
  filter_isdigit <$> split_whitespace runtime_cause !! 13%nat = Some "4" /\
  (exists details : ExecutionFailedEventDetails,
     executionFailedEventDetails <$> runtime_history !! 0%nat = Some (Some details) /\
     error details = Some "States.Runtime" /\
     cause details = Some runtime_cause) /\
  fst (parse_failure_history (sample_client "source" [Page runtime_history]) 6
         sample_arn [])
  = Raised TypeError.
Proof.
  split; [reflexivity |]. split; [| reflexivity].
  eexists. split; [reflexivity |]. split; reflexivity.
Qed.

(** ** The whole run *)

(** On the history of the failed task the script locates "B", builds the
    resuming machine from the definition of [MyMachine] and starts it. *)
Example main_resumes_task :
  main (sample_client "source" [Page task_history]) "20240131-1405"
    sample_loads sample_dumps 7 sample_arn []
  = (Returned tt,
     [GetExecutionHistory sample_arn true true 1000;
      DescribeStateMachine "arn:aws:states:us-east-1:123:stateMachine:MyMachine";
      CreateStateMachine "MyMachine-resumeState-20240131-1405"
        "definition starting at GoToState" "arn:aws:iam::123:role/states";
      StartExecution
        "arn:aws:states:us-east-1:123:stateMachine:MyMachine-resumeState-20240131-1405"
        resuming_input]).
Proof. reflexivity. Qed.

(** * Further properties *)

(** ** The state-machine identifier, in general *)

Lemma state_machine_arn_of_components_witness :
  get_state_machine_arn_from_execution_arn
    (join ":" ["arn"; "aws"; "states"; "eu-west-1"; "42"; "execution"; "Orders"; "run-7"])
  = Returned
      (join ":" (<[5%nat := "stateMachine"]>
                   (drop_last ["arn"; "aws"; "states"; "eu-west-1"; "42"; "execution";
                               "Orders"; "run-7"]))).
Proof.
  apply state_machine_arn_of_components.
  - simpl. lia.
  - repeat constructor.
Defined.

Lemma length_split (sep : ascii) (s : string) :
  length (split sep s) = S (count_char sep s).
Proof.
  induction s as [| c s IH]; [reflexivity |].
  cbn [split count_char].
  destruct (Ascii.eqb c sep); [simpl; by rewrite IH |].
  destruct (split sep s) as [| piece pieces]; [discriminate IH | exact IH].
Qed.

Lemma split_pieces_free (sep : ascii) (s : string) :
  Forall (fun piece : string => occurs sep piece = false) (split sep s).
Proof.
  induction s as [| c s IH]; [by repeat constructor |].
  cbn [split].
  destruct (Ascii.eqb c sep) eqn:Hc; [by constructor |].
  destruct (split sep s) as [| piece pieces]; [by repeat constructor; simpl; rewrite Hc |].
  inversion IH as [| ? ? Hpiece Hpieces]; subst.
  constructor; [| assumption]. simpl. by rewrite Hc, Hpiece.
Qed.

Lemma count_char_join_free (sep : ascii) (pieces : list string) :
  Forall (fun piece : string => occurs sep piece = false) pieces ->
  count_char sep (join (String sep EmptyString) pieces) = (length pieces - 1)%nat.
Proof.
  intros Hfree.
  destruct (decide (pieces = [])) as [-> | Hsome]; [reflexivity |].
  pose proof (length_split sep (join (String sep EmptyString) pieces)) as Hlength.
  rewrite split_join in Hlength by assumption. lia.
Qed.

(** The identifier is derived exactly when the execution identifier has
    six colons or more; with fewer, writing the sixth component is out of
    range and [IndexError] is raised. *)
Theorem state_machine_arn_needs_six_colons (execution_arn : string) :
  ((count_char ":" execution_arn < 6)%nat ->
   get_state_machine_arn_from_execution_arn execution_arn = Raised IndexError) /\
  ((6 <= count_char ":" execution_arn)%nat ->
   exists sm_arn : string,
     get_state_machine_arn_from_execution_arn execution_arn = Returned sm_arn).
Proof.
  unfold get_state_machine_arn_from_execution_arn, list_setitem, drop_last.
  pose proof (length_split ":" execution_arn) as Hlength.
  split; intros Hcount;
    destruct (decide (5 < length (take (length (split ":" execution_arn) - 1)
                                    (split ":" execution_arn)))%nat) as [Hin | Hout];
    rewrite length_take in *; simpl; eauto; lia.
Qed.

(** What is returned splits back into the components of the execution
    identifier without the last, ["stateMachine"] standing sixth: it has
    one colon fewer than the argument, and no component is otherwise
    altered. *)
Theorem state_machine_arn_components (execution_arn sm_arn : string) :
  get_state_machine_arn_from_execution_arn execution_arn = Returned sm_arn ->
  split ":" sm_arn
  = <[5%nat := "stateMachine"]> (drop_last (split ":" execution_arn)) /\
  count_char ":" sm_arn = (count_char ":" execution_arn - 1)%nat.
Proof.
  unfold get_state_machine_arn_from_execution_arn, list_setitem.
  set (pieces := drop_last (split ":" execution_arn)).
  destruct (decide (5 < length pieces)%nat) as [Hin | Hout]; [| discriminate].
  cbn [bind]. intros [= <-].
  assert (Hfree : Forall (fun piece : string => occurs ":" piece = false)
                    (<[5%nat := "stateMachine"]> pieces)).
  { apply Forall_insert; [| reflexivity].
    unfold pieces, drop_last. apply Forall_take, split_pieces_free. }
  split.
  - apply split_join; [| exact Hfree].
    intros Hnil. apply (f_equal length) in Hnil.
    rewrite length_insert in Hnil. simpl in Hnil. lia.
  - rewrite count_char_join_free, length_insert by exact Hfree.
    unfold pieces, drop_last. rewrite length_take, length_split. lia.
Qed.

Lemma state_machine_arn_components_witness :
  split ":" "arn:aws:states:us-east-1:123:stateMachine:MyMachine"
  = <[5%nat := "stateMachine"]> (drop_last (split ":" sample_arn)) /\
  count_char ":" "arn:aws:states:us-east-1:123:stateMachine:MyMachine"
  = (count_char ":" sample_arn - 1)%nat.
Proof.
  exact (state_machine_arn_components sample_arn
           "arn:aws:states:us-east-1:123:stateMachine:MyMachine" eq_refl).
Defined.

(** ** The failure locator, in general *)

Lemma list_getitem_elem {A : Type} (l : list A) (i : Z) (a : A) :
  list_getitem l i = Returned a -> a ∈ l.
Proof.
  unfold list_getitem. cbv zeta.
  destruct (_ || _); [discriminate |].
  destruct (l !! _) as [a' |] eqn:Hlookup; [| discriminate].
  intros [= <-]. eapply list_elem_of_lookup_2. exact Hlookup.
Qed.

Lemma entered_name_input_inv (event : HistoryEvent) (failed_state failed_input : string) :
  entered_name_input event = Returned (failed_state, failed_input) ->
  exists details : StateEnteredEventDetails,
    stateEnteredEventDetails event = Some details /\
    name details = failed_state /\
    input details = Some failed_input.
Proof.
  unfold entered_name_input.
  destruct (stateEnteredEventDetails event) as [details |]; [| discriminate].
  cbn [getitem_key bind].
  destruct (input details) as [payload |] eqn:Hinput; [| discriminate].
  cbn [getitem_key bind]. intros [= <- <-]. exists details. auto.
Qed.

Lemma walk_Found (fuel : nat) (failed_event : list HistoryEvent) (flag : bool)
    (current_event_id : Z) (failed_state failed_input : string) :
  walk fuel failed_event flag current_event_id
  = Returned (Found failed_state failed_input) ->
  reported_by failed_event failed_state failed_input.
Proof.
  revert flag current_event_id.
  induction fuel as [| fuel IH]; intros flag cur; rewrite walk_unfold;
    destruct (cur =? 0); try discriminate.
  destruct (list_getitem failed_event (-1 * cur)) as [event | |] eqn:Hevent;
    try discriminate.
  apply list_getitem_elem in Hevent. cbn [bind]. cbv zeta.
  destruct (String.eqb (type event) "TaskStateEntered" && _) eqn:Htask.
  { apply andb_true_iff in Htask as [Htask _]. apply String.eqb_eq in Htask.
    destruct (entered_name_input event) as [[n v] | |] eqn:Hfound; try discriminate.
    cbn [bind fst snd]. intros [= <- <-].
    apply entered_name_input_inv in Hfound as (details & ? & ? & ?).
    exists event, details. auto. }
  destruct (String.eqb (type event) "ParallelStateEntered" && _) eqn:Hparallel.
  { apply andb_true_iff in Hparallel as [Hparallel _].
    apply String.eqb_eq in Hparallel.
    destruct (entered_name_input event) as [[n v] | |] eqn:Hfound; try discriminate.
    cbn [bind fst snd]. intros [= <- <-].
    apply entered_name_input_inv in Hfound as (details & ? & ? & ?).
    exists event, details. auto. }
  destruct (previousEventId event) as [previous |]; [| discriminate].
  cbn [getitem_key bind]. apply IH.
Qed.

(** The conversion of line 59 never yields an integer. *)
Lemma runtime_failed_id_raises (failed_event : list HistoryEvent) (failed_id : Z) :
  runtime_failed_id failed_event <> Returned failed_id.
Proof.
  unfold runtime_failed_id, int_of_filter.
  destruct (list_getitem failed_event 0) as [first | |]; try discriminate.
  cbn [bind].
  destruct (executionFailedEventDetails first) as [details |]; [| discriminate].
  cbn [getitem_key bind].
  destruct (cause details) as [message |]; [| discriminate].
  cbn [getitem_key bind].
  destruct (list_getitem (split_whitespace message) 13); discriminate.
Qed.

Lemma parse_pages_Returned (fuel : nat) (flag : bool) (failed_events : list fetched)
    (failed_state failed_input : string) :
  parse_pages fuel flag failed_events = Returned (Some (failed_state, failed_input)) ->
  exists failed_event : list HistoryEvent,
    Page failed_event ∈ failed_events /\
    reported_by failed_event failed_state failed_input.
Proof.
  revert flag.
  induction failed_events as [| [failed_event | e] rest IH]; intros flag;
    cbn [parse_pages]; try discriminate.
  destruct (length failed_event <? 1)%nat; [discriminate |].
  destruct (list_getitem failed_event 0) as [first | |]; try discriminate.
  cbn [bind].
  destruct (executionFailedEventDetails first) as [details |]; [| discriminate].
  cbn [getitem_key bind].
  destruct (details_empty details); [discriminate |].
  destruct (error details) as [tag |]; [| discriminate].
  cbn [getitem_key bind].
  destruct (String.eqb tag "States.Runtime").
  - destruct (runtime_failed_id failed_event) as [failed_id | |] eqn:Hid;
      try discriminate.
    by apply runtime_failed_id_raises in Hid.
  - destruct (walk fuel failed_event flag (id first)) as [[n v | flag'] | |] eqn:Hwalk;
      try discriminate; cbn [bind].
    + intros [= <- <-]. exists failed_event. split; [left |].
      by eapply walk_Found.
    + intros Hrest. destruct (IH _ Hrest) as (page & Hin & Hreported).
      exists page. split; [by right | assumption].
Qed.

(** Whatever the history, a step the locator returns is the name and the
    input carried by a "TaskStateEntered" or "ParallelStateEntered" event
    of one of the pages fetched. *)
Theorem parse_failure_history_reports_entered_event (client : Client) (fuel : nat)
    (failed_execution_arn : string) (log : list request)
    (failed_state failed_input : string) :
  fst (parse_failure_history client fuel failed_execution_arn log)
  = Returned (Some (failed_state, failed_input)) ->
  exists failed_event : list HistoryEvent,
    Page failed_event ∈ get_execution_history client log failed_execution_arn /\
    reported_by failed_event failed_state failed_input.
Proof.
  rewrite parse_failure_history_pages. cbn [fst]. apply parse_pages_Returned.
Qed.

Lemma parse_failure_history_reports_entered_event_witness :
  exists failed_event : list HistoryEvent,
    Page failed_event ∈ [Page parallel_history] /\
    reported_by failed_event "Fanout" "{}".
Proof.
  exact (parse_failure_history_reports_entered_event
           (sample_client "source" [Page parallel_history]) 7 sample_arn []
           "Fanout" "{}" eq_refl).
Defined.

(** The general case on any first page: the loop starts from the id of
    the head. *)
Lemma parse_pages_walk (fuel : nat) (flag : bool) (failed_event : list HistoryEvent)
    (rest : list fetched) (first : HistoryEvent) :
  failed_event !! 0%nat = Some first ->
  general_failure first ->
  parse_pages fuel flag (Page failed_event :: rest)
  = (exit <- walk fuel failed_event flag (id first) ;;
     match exit with
     | Found failed_state failed_input => Returned (Some (failed_state, failed_input))
     | Exhausted flag' => parse_pages fuel flag' rest
     end).
Proof.
  intros Hfirst (details & tag & Hdetails & Htag & Hgeneral).
  destruct failed_event as [| first' events]; [discriminate |].
  injection Hfirst as ->.
  cbn [parse_pages length Nat.ltb Nat.leb].
  rewrite list_getitem_head. cbn [bind getitem_key].
  rewrite Hdetails. cbn [bind getitem_key].
  unfold details_empty. rewrite Htag. cbn [bind getitem_key].
  apply String.eqb_neq in Hgeneral. by rewrite Hgeneral.
Qed.

(** A first page that does not reach back to the id of its head, as the
    first page of a history longer than one page, makes the first lookup
    of the walk fall before the start of the page: the locator raises
    [IndexError]. *)
Theorem parse_failure_history_head_beyond_page (client : Client) (fuel : nat)
    (failed_execution_arn : string) (log : list request)
    (failed_event : list HistoryEvent) (rest : list fetched) (first : HistoryEvent) :
  get_execution_history client log failed_execution_arn = Page failed_event :: rest ->
  failed_event !! 0%nat = Some first ->
  general_failure first ->
  Z.of_nat (length failed_event) < id first ->
  (1 <= fuel)%nat ->
  fst (parse_failure_history client fuel failed_execution_arn log) = Raised IndexError.
Proof.
  intros Hhistory Hfirst Hgeneral Hbeyond Hfuel.
  rewrite parse_failure_history_pages, Hhistory. cbn [fst].
  rewrite (parse_pages_walk _ _ _ _ _ Hfirst Hgeneral), walk_unfold.
  destruct (Z.eqb_spec (id first) 0) as [Hzero | _]; [lia |].
  destruct fuel as [| fuel]; [lia |].
  unfold list_getitem. cbv zeta.
  destruct (Z.ltb_spec (-1 * id first) 0) as [_ | ?]; [| lia].
  destruct (Z.ltb_spec (-1 * id first + Z.of_nat (length failed_event)) 0)
    as [_ | ?]; [reflexivity | lia].
Qed.

Lemma parse_failure_history_head_beyond_page_witness :
  fst (parse_failure_history (sample_client "source" [Page truncated_history]) 3
         sample_arn [])
  = Raised IndexError.
Proof.
  refine (parse_failure_history_head_beyond_page
            (sample_client "source" [Page truncated_history]) 3 sample_arn []
            truncated_history [] _ eq_refl eq_refl _ _ _).
  - eexists _, _. split; [reflexivity |]. split; [reflexivity | discriminate].
  - simpl. lia.
  - lia.
Defined.

Lemma list_getitem_outcome {A : Type} (l : list A) (i : Z) :
  (exists a : A, list_getitem l i = Returned a) \/
  list_getitem l i = Raised IndexError.
Proof.
  unfold list_getitem. cbv zeta.
  destruct (_ || _); [by right |].
  destruct (l !! _) as [a |]; [left; by exists a | by right].
Qed.

(** In the runtime-error case the locator returns no step, whatever the
    page, the pages after it and the fuel: it raises, [KeyError] on the
    cause exactly when the failure details hold none, and otherwise the
    [IndexError] of the token lookup or the [TypeError] of the
    conversion. *)
Theorem runtime_error_never_returns (client : Client) (fuel : nat)
    (failed_execution_arn : string) (log : list request)
    (failed_event : list HistoryEvent) (rest : list fetched)
    (first : HistoryEvent) (details : ExecutionFailedEventDetails) :
  get_execution_history client log failed_execution_arn = Page failed_event :: rest ->
  failed_event !! 0%nat = Some first ->
  executionFailedEventDetails first = Some details ->
  error details = Some "States.Runtime" ->
  exists e : exn,
    fst (parse_failure_history client fuel failed_execution_arn log) = Raised e /\
    (cause details = None -> e = KeyError "cause") /\
    (is_Some (cause details) -> e = IndexError \/ e = TypeError).
Proof.
  intros Hhistory Hfirst Hdetails Htag.
  rewrite parse_failure_history_pages, Hhistory. cbn [fst].
  destruct failed_event as [| first' events]; [discriminate |].
  injection Hfirst as ->.
  cbn [parse_pages length Nat.ltb Nat.leb].
  rewrite list_getitem_head. cbn [bind getitem_key].
  rewrite Hdetails. cbn [bind getitem_key].
  unfold details_empty. rewrite Htag. cbn [bind getitem_key].
  cbn [String.eqb Ascii.eqb Bool.eqb andb].
  unfold runtime_failed_id.
  rewrite list_getitem_head. cbn [bind getitem_key].
  rewrite Hdetails. cbn [bind getitem_key].
  destruct (cause details) as [message |].
  - cbn [bind getitem_key].
    destruct (list_getitem_outcome (split_whitespace message) 13)
      as [[token ->] | ->]; cbn [bind]; unfold int_of_filter; cbn [bind].
    + exists TypeError. split; [reflexivity |]. split; [discriminate | by right].
    + exists IndexError. split; [reflexivity |]. split; [discriminate | by left].
  - exists (KeyError "cause"). split; [reflexivity |].
    split; [reflexivity | by intros [? ?]].
Qed.

Lemma runtime_error_never_returns_witness :
  exists e : exn,
    fst (parse_failure_history (sample_client "source" [Page runtime_history]) 6
           sample_arn [])
    = Raised e /\
    (e = IndexError \/ e = TypeError).
Proof.
  destruct (runtime_error_never_returns
              (sample_client "source" [Page runtime_history]) 6 sample_arn []
              runtime_history [] _ _ eq_refl eq_refl eq_refl eq_refl)
    as (e & Hraised & _ & Hcause).
  exists e. split; [exact Hraised |]. apply Hcause. by eexists.
Defined.

Lemma walk_self_link (failed_event : list HistoryEvent) (event : HistoryEvent)
    (current_event_id : Z) :
  current_event_id <> 0 ->
  list_getitem failed_event (-1 * current_event_id) = Returned event ->
  previousEventId event = Some current_event_id ->
  type event <> "TaskStateEntered" ->
  forall (fuel : nat) (flag : bool),
    (flag = true -> type event <> "ParallelStateEntered") ->
    walk fuel failed_event flag current_event_id = OutOfFuel.
Proof.
  intros Hid Hevent Hlink Htask.
  apply Z.eqb_neq in Hid. apply String.eqb_neq in Htask.
  induction fuel as [| fuel IH]; intros flag Hflag;
    rewrite walk_unfold, Hid; [reflexivity |].
  rewrite Hevent. cbn [bind]. cbv zeta. rewrite Htask. cbn [andb].
  destruct (String.eqb (type event) "ParallelStateFailed") eqn:Hfailed.
  - apply String.eqb_eq in Hfailed.
    replace (String.eqb (type event) "ParallelStateEntered") with false
      by (rewrite Hfailed; reflexivity).
    cbn [andb]. rewrite Hlink. cbn [getitem_key bind].
    apply IH. intros _. rewrite Hfailed. discriminate.
  - destruct flag.
    + specialize (Hflag eq_refl) as Hentered.
      apply String.eqb_neq in Hentered. rewrite Hentered. cbn [andb].
      rewrite Hlink. cbn [getitem_key bind]. by apply IH.
    + rewrite andb_false_r. rewrite Hlink. cbn [getitem_key bind].
      apply IH. discriminate.
Qed.

(** The loop has no bound of its own: when the event found for the head
    names the head's id as its predecessor and is no "TaskStateEntered",
    the walk comes back to it for ever, and no amount of fuel lets the
    locator finish. *)
Theorem parse_failure_history_self_link_diverges (client : Client)
    (failed_execution_arn : string) (log : list request)
    (failed_event : list HistoryEvent) (rest : list fetched)
    (first event : HistoryEvent) :
  get_execution_history client log failed_execution_arn = Page failed_event :: rest ->
  failed_event !! 0%nat = Some first ->
  general_failure first ->
  id first <> 0 ->
  list_getitem failed_event (-1 * id first) = Returned event ->
  previousEventId event = Some (id first) ->
  type event <> "TaskStateEntered" ->
  forall fuel : nat,
    fst (parse_failure_history client fuel failed_execution_arn log) = OutOfFuel.
Proof.
  intros Hhistory Hfirst Hgeneral Hid Hevent Hlink Htask fuel.
  rewrite parse_failure_history_pages, Hhistory. cbn [fst].
  rewrite (parse_pages_walk _ _ _ _ _ Hfirst Hgeneral).
  rewrite (walk_self_link _ _ _ Hid Hevent Hlink Htask); [reflexivity |].
  discriminate.
Qed.

Lemma parse_failure_history_self_link_diverges_witness :
  fst (parse_failure_history (sample_client "source" [Page self_linked_history]) 1000
         sample_arn [])
  = OutOfFuel.
Proof.
  refine (parse_failure_history_self_link_diverges
            (sample_client "source" [Page self_linked_history]) sample_arn []
            self_linked_history [] _ _ eq_refl eq_refl _ _ eq_refl eq_refl _ 1000%nat).
  - eexists _, _. split; [reflexivity |]. split; [reflexivity | discriminate].
  - discriminate.
  - discriminate.
Defined.

(** What the head of the first page must carry. When it brings no error
    tag, the locator raises: [KeyError] without failure details, the
    "unexpected failed event" exception quoting the page when the details
    hold neither error nor cause, [KeyError] on the error when they hold
    a cause only. Nothing of the rest of the page is read. *)
Theorem parse_failure_history_head_checks (client : Client) (fuel : nat)
    (failed_execution_arn : string) (log : list request)
    (first : HistoryEvent) (events : list HistoryEvent) (rest : list fetched) :
  get_execution_history client log failed_execution_arn
  = Page (first :: events) :: rest ->
  (forall details : ExecutionFailedEventDetails,
     executionFailedEventDetails first = Some details -> error details = None) ->
  fst (parse_failure_history client fuel failed_execution_arn log)
  = match executionFailedEventDetails first with
    | None => Raised (KeyError "executionFailedEventDetails")
    | Some details =>
        match cause details with
        | None =>
            Raised (Exception "unexpected failed event: " (ArgEvents (first :: events)))
        | Some _ => Raised (KeyError "error")
        end
    end.
Proof.
  intros Hhistory Hno_tag.
  rewrite parse_failure_history_pages, Hhistory. cbn [fst].
  cbn [parse_pages length Nat.ltb Nat.leb].
  rewrite list_getitem_head. cbn [bind getitem_key].
  destruct (executionFailedEventDetails first) as [details |]; [| reflexivity].
  cbn [bind getitem_key].
  unfold details_empty. rewrite (Hno_tag details eq_refl).
  by destruct (cause details).
Qed.

Lemma parse_failure_history_head_checks_witness :
  fst (parse_failure_history (sample_client "source" [Page succeeded_history]) 2
         sample_arn [])
  = Raised (KeyError "executionFailedEventDetails").
Proof.
  refine (parse_failure_history_head_checks
            (sample_client "source" [Page succeeded_history]) 2 sample_arn []
            _ _ [] eq_refl _).
  intros details Hdetails. discriminate Hdetails.
Defined.


(** ** The resume graph builder, in general *)

(** When the definition cannot be fetched, the builder raises the
    exception that wraps the cause, and asks the service for nothing
    more: no machine is created. *)
Theorem attach_go_to_state_describe_refused (client : Client) (date_time : string)
    (json_loads : string -> reply json) (json_dumps : json -> string)
    (failed_state_name state_machine_arn : string) (log : list request)
    (cause : exn) :
  describe_state_machine client log state_machine_arn = Failed cause ->
  attach_go_to_state client date_time json_loads json_dumps
    failed_state_name state_machine_arn log
  = (Raised (Exception "Could not get ASL definition of state machine: "
               (ArgExn cause)),
     log ++ [DescribeStateMachine state_machine_arn]).
Proof.
  intros Hdescribe.
  unfold attach_go_to_state, bindM, try_except, call. by rewrite Hdescribe.
Qed.

Lemma attach_go_to_state_describe_refused_witness :
  attach_go_to_state refusing_client "20240131-1405" sample_loads sample_dumps
    "B" "arn:aws:states:us-east-1:123:stateMachine:Gone" []
  = (Raised (Exception "Could not get ASL definition of state machine: "
               (ArgExn (ClientError "StateMachineDoesNotExist"))),
     [DescribeStateMachine "arn:aws:states:us-east-1:123:stateMachine:Gone"]).
Proof.
  exact (attach_go_to_state_describe_refused refusing_client "20240131-1405"
           sample_loads sample_dumps "B"
           "arn:aws:states:us-east-1:123:stateMachine:Gone" [] _ eq_refl).
Defined.

Lemma insert_go_to_state_resumable (state_machine resumed : json)
    (failed_state_name : string) :
  insert_go_to_state state_machine failed_state_name = Returned resumed ->
  resumable state_machine.
Proof.
  unfold insert_go_to_state.
  destruct state_machine as [| | | | | | members]; try discriminate.
  cbn [json_getitem].
  destruct (members !! "StartAt") as [original_start_at |] eqn:Hstart;
    [| discriminate].
  cbn [getitem_key bind].
  destruct (members !! "States") as [[| | | | | | states] |] eqn:Hstates;
    try discriminate.
  intros _. by exists members, states, original_start_at.
Qed.

Lemma insert_go_to_state_raises (state_machine : json) (failed_state_name : string) :
  ~ resumable state_machine ->
  exists e : exn,
    insert_go_to_state state_machine failed_state_name = Raised e /\
    (e = KeyError "StartAt" \/ e = KeyError "States" \/ e = TypeError).
Proof.
  intros Hmalformed. unfold insert_go_to_state.
  destruct state_machine as [| | | | | | members]; try (by eexists; eauto).
  cbn [json_getitem].
  destruct (members !! "StartAt") as [original_start_at |] eqn:Hstart;
    [| by eexists; eauto].
  cbn [getitem_key bind].
  destruct (members !! "States") as [[| | | | | | states] |] eqn:Hstates;
    try (by eexists; eauto).
  destruct Hmalformed. by exists members, states, original_start_at.
Qed.

(** A definition that is no dictionary, or lacks ['StartAt'] or
    ['States'], or holds under ['States'] something else than a
    dictionary, stops the builder with the [KeyError] or [TypeError] of
    the access, unwrapped, and no machine is created. *)
Theorem attach_go_to_state_malformed_definition (client : Client) (date_time : string)
    (json_loads : string -> reply json) (json_dumps : json -> string)
    (failed_state_name state_machine_arn : string) (log : list request)
    (response : DescribeStateMachineOutput) (source : json) :
  describe_state_machine client log state_machine_arn = Ok response ->
  json_loads (definition response) = Ok source ->
  ~ resumable source ->
  exists e : exn,
    attach_go_to_state client date_time json_loads json_dumps
      failed_state_name state_machine_arn log
    = (Raised e, log ++ [DescribeStateMachine state_machine_arn]) /\
    (e = KeyError "StartAt" \/ e = KeyError "States" \/ e = TypeError).
Proof.
  intros Hdescribe Hloads Hmalformed.
  destruct (insert_go_to_state_raises source failed_state_name Hmalformed)
    as (e & Hinsert & He).
  exists e. split; [| exact He].
  unfold attach_go_to_state, bindM, try_except, call, lift.
  by rewrite Hdescribe, Hloads, Hinsert.
Qed.

Lemma attach_go_to_state_malformed_definition_witness :
  exists e : exn,
    attach_go_to_state (sample_client "stateless" []) "20240131-1405"
      stateless_loads sample_dumps "B" sample_arn []
    = (Raised e, [DescribeStateMachine sample_arn]) /\
    (e = KeyError "StartAt" \/ e = KeyError "States" \/ e = TypeError).
Proof.
  refine (attach_go_to_state_malformed_definition
            (sample_client "stateless" []) "20240131-1405" stateless_loads
            sample_dumps "B" sample_arn [] _ stateless_source eq_refl eq_refl _).
  intros (members & states & original_start_at & [= <-] & _ & Hstates).
  discriminate Hstates.
Defined.

(** A definition text that [json.loads] rejects stops the builder with
    the exception of the parser, unwrapped, after the one describe call. *)
Theorem attach_go_to_state_unparsable_definition (client : Client)
    (date_time : string)
    (json_loads : string -> reply json) (json_dumps : json -> string)
    (failed_state_name state_machine_arn : string) (log : list request)
    (response : DescribeStateMachineOutput) (e : exn) :
  describe_state_machine client log state_machine_arn = Ok response ->
  json_loads (definition response) = Failed e ->
  attach_go_to_state client date_time json_loads json_dumps
    failed_state_name state_machine_arn log
  = (Raised e, log ++ [DescribeStateMachine state_machine_arn]).
Proof.
  intros Hdescribe Hloads.
  unfold attach_go_to_state, bindM, try_except, call, lift.
  by rewrite Hdescribe, Hloads.
Qed.

Lemma attach_go_to_state_unparsable_definition_witness :
  attach_go_to_state (sample_client "{" []) "20240131-1405"
    sample_loads sample_dumps "B" sample_arn []
  = (Raised ValueError, [DescribeStateMachine sample_arn]).
Proof.
  exact (attach_go_to_state_unparsable_definition
           (sample_client "{" []) "20240131-1405" sample_loads sample_dumps
           "B" sample_arn [] _ _ eq_refl eq_refl).
Defined.

(** The mutation touches two members of the definition only: every
    member other than ['StartAt'] and ['States'] is read back from the
    result as it was in the source, present or absent. *)
Theorem insert_go_to_state_keeps_other_members (source resumed : json)
    (failed_state_name key : string) :
  insert_go_to_state source failed_state_name = Returned resumed ->
  key <> "StartAt" ->
  key <> "States" ->
  json_getitem resumed key = json_getitem source key.
Proof.
  intros Hinsert Hstart Hstates.
  destruct (insert_go_to_state_resumable _ _ _ Hinsert)
    as (members & states & original_start_at & -> & Hm_start & Hm_states).
  rewrite (insert_go_to_state_members _ _ _ _ Hm_start Hm_states) in Hinsert.
  injection Hinsert as <-. cbn [json_getitem].
  by rewrite !lookup_insert_ne.
Qed.

Lemma insert_go_to_state_keeps_other_members_witness :
  exists resumed : json,
    insert_go_to_state commented_source "B" = Returned resumed /\
    json_getitem resumed "TimeoutSeconds" = Returned (JInt 300).
Proof.
  eexists. split; [reflexivity |].
  rewrite (insert_go_to_state_keeps_other_members commented_source _ "B"
             "TimeoutSeconds" eq_refl);
    [reflexivity | discriminate | discriminate].
Defined.

(** When the reserved name is free, the mutation adds exactly one state:
    the keys of ['States'] are those of the source and ["GoToState"], one
    more in number, and every state of the source is kept as it was. *)
Theorem insert_go_to_state_adds_one_state (source original_start_at : json)
    (states : gmap string json) (failed_state_name : string) :
  json_getitem source "StartAt" = Returned original_start_at ->
  json_getitem source "States" = Returned (JObj states) ->
  states !! "GoToState" = None ->
  exists (resumed : json) (states' : gmap string json),
    insert_go_to_state source failed_state_name = Returned resumed /\
    json_getitem resumed "States" = Returned (JObj states') /\
    dom states' = {["GoToState"]} ∪ dom states /\
    size states' = S (size states) /\
    (forall (key : string) (state : json),
       states !! key = Some state -> states' !! key = Some state).
Proof.
  intros Hstart Hstates Hfree.
  apply json_getitem_Returned in Hstart as (members & -> & Hstart).
  apply json_getitem_Returned in Hstates as (members' & [= <-] & Hstates).
  eexists _, _. split; [by apply insert_go_to_state_members |].
  split.
  { cbn [json_getitem]. rewrite lookup_insert_ne by discriminate.
    rewrite lookup_insert_eq. reflexivity. }
  split; [apply dom_insert_L |].
  split; [by apply map_size_insert_None |].
  intros key state Hkey. rewrite lookup_insert_ne; [exact Hkey |].
  intros <-. congruence.
Qed.

Lemma insert_go_to_state_adds_one_state_witness :
  exists (resumed : json) (states' : gmap string json),
    insert_go_to_state sample_source "B" = Returned resumed /\
    json_getitem resumed "States" = Returned (JObj states') /\
    size states' = 3%nat.
Proof.
  destruct (insert_go_to_state_adds_one_state sample_source (JStr "A") _ "B"
              eq_refl eq_refl eq_refl)
    as (resumed & states' & Hinsert & Hstates & _ & Hsize & _).
  exists resumed, states'. split; [exact Hinsert |]. split; [exact Hstates |].
  rewrite Hsize. reflexivity.
Defined.

(** References of the result. The new ['StartAt'] always names a state
    of the result; the [Next] of the injected step names one whenever the
    ['StartAt'] of the source named a state of the source; its [Default]
    names one exactly when the failed step name is a state of the source
    or is ["GoToState"] itself: the failed name is not checked against
    the definition. *)
Theorem insert_go_to_state_references (source : json) (states : gmap string json)
    (start failed_state_name : string) :
  json_getitem source "StartAt" = Returned (JStr start) ->
  json_getitem source "States" = Returned (JObj states) ->
  exists resumed : json,
    insert_go_to_state source failed_state_name = Returned resumed /\
    resolves resumed (json_getitem resumed "StartAt") /\
    (is_Some (states !! start) -> resolves resumed (redirect_next resumed)) /\
    (resolves resumed (redirect_default resumed) <->
     is_Some (states !! failed_state_name) \/ failed_state_name = "GoToState").
Proof.
  intros Hstart Hstates.
  apply json_getitem_Returned in Hstart as (members & -> & Hstart).
  apply json_getitem_Returned in Hstates as (members' & [= <-] & Hstates).
  eexists. split; [by apply insert_go_to_state_members |].
  set (states' := <["GoToState" := go_to_state (JStr start) failed_state_name]> states).
  assert (Hread : forall other : gmap string json,
             json_getitem (JObj (<["StartAt" := JStr "GoToState"]>
                                   (<["States" := JObj states']> other))) "States"
             = Returned (JObj states')).
  { intros other. cbn [json_getitem]. rewrite lookup_insert_ne by discriminate.
    by rewrite lookup_insert_eq. }
  split; [| split].
  - exists "GoToState", states'. split; [| split; [apply Hread |]].
    + cbn [json_getitem]. by rewrite lookup_insert_eq.
    + unfold states'. rewrite lookup_insert_eq. eauto.
  - intros [state Hstate]. exists start, states'.
    split; [apply redirect_next_go_to_state |]. split; [apply Hread |].
    unfold states'. destruct (decide ("GoToState" = start)) as [<- | Hother].
    + rewrite lookup_insert_eq. eauto.
    + rewrite lookup_insert_ne by exact Hother. eauto.
  - assert (Hdefault : redirect_default
                         (JObj (<["StartAt" := JStr "GoToState"]>
                                  (<["States" := JObj states']> members)))
                       = Returned (JStr failed_state_name)).
    { unfold redirect_default. rewrite Hread. cbn [bind json_getitem].
      unfold states'. rewrite lookup_insert_eq. reflexivity. }
    rewrite Hdefault. split.
    + intros (step_name & states'' & [= <-] & Hstates'' & Hsome).
      rewrite Hread in Hstates''. injection Hstates'' as <-.
      destruct (decide ("GoToState" = failed_state_name)) as [<- | Hother];
        [by right | left].
      unfold states' in Hsome. by rewrite lookup_insert_ne in Hsome.
    + intros Hknown. exists failed_state_name, states'.
      split; [reflexivity |]. split; [apply Hread |].
      unfold states'. destruct (decide ("GoToState" = failed_state_name)) as [<- | Hother].
      * rewrite lookup_insert_eq. eauto.
      * rewrite lookup_insert_ne by exact Hother.
        destruct Hknown as [Hsome | ->]; [exact Hsome | done].
Qed.

Lemma insert_go_to_state_references_witness :
  exists resumed : json,
    insert_go_to_state sample_source "Missing" = Returned resumed /\
    resolves resumed (json_getitem resumed "StartAt") /\
    ~ resolves resumed (redirect_default resumed).
Proof.
  destruct (insert_go_to_state_references sample_source _ "A" "Missing"
              eq_refl eq_refl)
    as (resumed & Hinsert & Hstart & _ & Hdefault).
  exists resumed. split; [exact Hinsert |]. split; [exact Hstart |].
  intros Hresolves. apply Hdefault in Hresolves as [[state Hstate] | Hname];
    discriminate.
Defined.

(** Building from a definition the script has built. The second
    mutation succeeds, and the [Next] of its injected step is
    ["GoToState"], the step itself: with [resuming] false the machine
    comes back to its entry step for ever, and the step that led to the
    first start is no longer referred to by the redirect. *)
Theorem insert_go_to_state_twice (source original_start_at : json)
    (states : gmap string json) (first_failed second_failed : string) :
  json_getitem source "StartAt" = Returned original_start_at ->
  json_getitem source "States" = Returned (JObj states) ->
  exists once twice : json,
    insert_go_to_state source first_failed = Returned once /\
    insert_go_to_state once second_failed = Returned twice /\
    json_getitem twice "StartAt" = Returned (JStr "GoToState") /\
    redirect_next twice = Returned (JStr "GoToState") /\
    redirect_default twice = Returned (JStr second_failed).
Proof.
  intros Hstart Hstates.
  apply json_getitem_Returned in Hstart as (members & -> & Hstart).
  apply json_getitem_Returned in Hstates as (members' & [= <-] & Hstates).
  eexists _, _. split; [by apply insert_go_to_state_members |].
  split.
  { apply insert_go_to_state_members.
    - apply lookup_insert_eq.
    - rewrite lookup_insert_ne by discriminate. apply lookup_insert_eq. }
  split; [cbn [json_getitem]; by rewrite lookup_insert_eq |].
  split; [apply redirect_next_go_to_state |].
  unfold redirect_default. cbn [json_getitem].
  rewrite lookup_insert_ne by discriminate. rewrite lookup_insert_eq.
  cbn [getitem_key bind json_getitem]. rewrite lookup_insert_eq. reflexivity.
Qed.

Lemma insert_go_to_state_twice_witness :
  exists once twice : json,
    insert_go_to_state sample_source "B" = Returned once /\
    insert_go_to_state once "A" = Returned twice /\
    json_getitem twice "StartAt" = Returned (JStr "GoToState") /\
    redirect_next twice = Returned (JStr "GoToState") /\
    redirect_default twice = Returned (JStr "A").
Proof.
  exact (insert_go_to_state_twice sample_source (JStr "A") _ "B" "A"
           eq_refl eq_refl).
Defined.

(** ** The whole run, in general *)

(** A run in which every step succeeds: four calls in this order, the
    describe addressed to the identifier derived from the execution's,
    the machine created from the located step, and the execution started
    on the machine the service returned, with the fixed input; the input
    of the failed step is passed on to none of them. *)
Theorem main_run (client : Client) (date_time : string)
    (json_loads : string -> reply json) (json_dumps : json -> string)
    (fuel : nat) (execution_arn : string) (log : list request)
    (failed_state failed_input state_machine_arn : string)
    (response : DescribeStateMachineOutput) (source resumed : json)
    (created : CreateStateMachineOutput) :
  let history := GetExecutionHistory execution_arn true true 1000 in
  let describe := DescribeStateMachine state_machine_arn in
  let create :=
    CreateStateMachine (machine_name response +:+ "-resumeState-" +:+ date_time)
      (json_dumps resumed) (roleArn response) in
  let start := StartExecution (stateMachineArn created) resuming_input in
  fst (parse_failure_history client fuel execution_arn log)
  = Returned (Some (failed_state, failed_input)) ->
  get_state_machine_arn_from_execution_arn execution_arn = Returned state_machine_arn ->
  describe_state_machine client (log ++ [history]) state_machine_arn = Ok response ->
  json_loads (definition response) = Ok source ->
  insert_go_to_state source failed_state = Returned resumed ->
  create_state_machine client (log ++ [history; describe])
    (machine_name response +:+ "-resumeState-" +:+ date_time)
    (json_dumps resumed) (roleArn response) = Ok created ->
  main client date_time json_loads json_dumps fuel execution_arn log
  = (match start_execution client (log ++ [history; describe; create])
             (stateMachineArn created) resuming_input with
     | Ok _ => Returned tt
     | Failed e => Raised (Exception "Failed to start Execution: " (ArgExn e))
     end,
     log ++ [history; describe; create; start]).
Proof.
  intros history describe create start Hlocated Harn Hdescribe Hloads Hinsert Hcreate.
  rewrite parse_failure_history_pages in Hlocated. cbn [fst] in Hlocated.
  unfold main, bindM at 1. rewrite parse_failure_history_pages, Hlocated.
  unfold lift at 1, bindM at 1. cbn [unpack_pair fst].
  unfold lift at 1, bindM at 1. rewrite Harn.
  unfold bindM at 1.
  fold history.
  rewrite (attach_go_to_state_run _ _ _ _ _ _ _ _ _ _ Hdescribe Hloads Hinsert).
  cbv zeta. fold describe.
  replace ((log ++ [history]) ++ [describe]) with (log ++ [history; describe])
    by (rewrite <- app_assoc; reflexivity).
  rewrite Hcreate. fold create.
  unfold start_new_state_machine_execution, bindM, try_except, call, retM.
  replace ((log ++ [history; describe]) ++ [create])
    with (log ++ [history; describe; create]) by (rewrite <- app_assoc; reflexivity).
  destruct (start_execution client _ _ _); cbn; by rewrite <- app_assoc.
Qed.

Lemma main_run_witness :
  main (sample_client "source" [Page parallel_history]) "20240131-1405"
    sample_loads sample_dumps 7 sample_arn []
  = (Returned tt,
     [GetExecutionHistory sample_arn true true 1000;
      DescribeStateMachine "arn:aws:states:us-east-1:123:stateMachine:MyMachine";
      CreateStateMachine "MyMachine-resumeState-20240131-1405"
        "definition starting at GoToState" "arn:aws:iam::123:role/states";
      StartExecution
        "arn:aws:states:us-east-1:123:stateMachine:MyMachine-resumeState-20240131-1405"
        resuming_input]).
Proof.
  exact (main_run (sample_client "source" [Page parallel_history]) "20240131-1405"
           sample_loads sample_dumps 7 sample_arn []
           "Fanout" "{}" "arn:aws:states:us-east-1:123:stateMachine:MyMachine"
           _ sample_source _ _
           eq_refl eq_refl eq_refl eq_refl eq_refl eq_refl).
Defined.

(** When the locator returns [None], the run stops at the unpacking of
    line 19 with a [TypeError], having asked the service for the history
    only: nothing is described, created or started. *)
Theorem main_without_step (client : Client) (date_time : string)
    (json_loads : string -> reply json) (json_dumps : json -> string)
    (fuel : nat) (execution_arn : string) (log : list request) :
  fst (parse_failure_history client fuel execution_arn log) = Returned None ->
  main client date_time json_loads json_dumps fuel execution_arn log
  = (Raised TypeError, log ++ [GetExecutionHistory execution_arn true true 1000]).
Proof.
  rewrite parse_failure_history_pages. cbn [fst]. intros Hnone.
  unfold main, bindM. by rewrite parse_failure_history_pages, Hnone.
Qed.

Lemma main_without_step_witness :
  main (sample_client "source" [Page fail_state_history]) "20240131-1405"
    sample_loads sample_dumps 3 sample_arn []
  = (Raised TypeError, [GetExecutionHistory sample_arn true true 1000]).
Proof.
  exact (main_without_step (sample_client "source" [Page fail_state_history])
           "20240131-1405" sample_loads sample_dumps 3 sample_arn [] eq_refl).
Defined.

(** Whatever the service answers and whatever the history holds, a run
    starts an execution only of a machine that [create_state_machine]
    has just returned, after the request that created it, and only with
    the fixed input. *)
Theorem main_starts_only_created_machine (client : Client) (date_time : string)
    (json_loads : string -> reply json) (json_dumps : json -> string)
    (fuel : nat) (execution_arn : string) (log : list request) :
  exists calls : list request,
    snd (main client date_time json_loads json_dumps fuel execution_arn log)
    = log ++ calls /\
    forall machine execution_input : string,
      StartExecution machine execution_input ∈ calls ->
      execution_input = resuming_input /\
      exists (before : list request) (new_name new_definition role : string)
             (created : CreateStateMachineOutput),
        calls = before ++ [CreateStateMachine new_name new_definition role;
                           StartExecution machine execution_input] /\
        create_state_machine client (log ++ before) new_name new_definition role
        = Ok created /\
        machine = stateMachineArn created.
Proof.
  set (history := GetExecutionHistory execution_arn true true 1000).
  assert (Hstop : forall (stopped : list request),
             Forall (fun r : request =>
                       forall machine execution_input : string,
                         r <> StartExecution machine execution_input) stopped ->
             forall machine execution_input : string,
               StartExecution machine execution_input ∈ stopped ->
               execution_input = resuming_input /\
               exists (before : list request) (new_name new_definition role : string)
                      (created : CreateStateMachineOutput),
                 stopped = before ++ [CreateStateMachine new_name new_definition role;
                                      StartExecution machine execution_input] /\
                 create_state_machine client (log ++ before) new_name new_definition role
                 = Ok created /\
                 machine = stateMachineArn created).
  { intros stopped Hnone machine execution_input Hin.
    rewrite Forall_forall in Hnone. by destruct (Hnone _ Hin machine execution_input). }
  unfold main, bindM at 1. rewrite parse_failure_history_pages.
  destruct (parse_pages fuel false (get_execution_history client log execution_arn))
    as [[found |] | e |];
    try (exists [history]; split; [reflexivity |];
         apply Hstop; repeat constructor; discriminate).
  unfold lift at 1, bindM at 1. cbn [unpack_pair].
  unfold lift at 1, bindM at 1.
  destruct (get_state_machine_arn_from_execution_arn execution_arn)
    as [state_machine_arn | e |];
    try (exists [history]; split; [reflexivity |];
         apply Hstop; repeat constructor; discriminate).
  set (describe := DescribeStateMachine state_machine_arn).
  unfold bindM at 1, attach_go_to_state, bindM, try_except, call, lift.
  fold history describe.
  destruct (describe_state_machine client (log ++ [history]) state_machine_arn)
    as [response | e];
    [| exists [history; describe]; split; [cbn; by rewrite <- app_assoc |];
       apply Hstop; repeat constructor; discriminate].
  destruct (json_loads (definition response)) as [source | e];
    [| exists [history; describe]; split; [cbn; by rewrite <- app_assoc |];
       apply Hstop; repeat constructor; discriminate].
  destruct (insert_go_to_state source (fst found)) as [resumed | e |];
    try (exists [history; describe]; split; [cbn; by rewrite <- app_assoc |];
         apply Hstop; repeat constructor; discriminate).
  set (new_name := machine_name response +:+ "-resumeState-" +:+ date_time).
  set (create := CreateStateMachine new_name (json_dumps resumed) (roleArn response)).
  destruct (create_state_machine client ((log ++ [history]) ++ [describe]) new_name
              (json_dumps resumed) (roleArn response)) as [created | e] eqn:Hcreate;
    [| exists [history; describe; create]; split;
       [cbn; by rewrite <- !app_assoc |];
       apply Hstop; repeat constructor; discriminate].
  set (start := StartExecution (stateMachineArn created) resuming_input).
  exists [history; describe; create; start]. split.
  { unfold start_new_state_machine_execution, bindM, try_except, call, retM.
    fold start.
    destruct (start_execution client _ _ _); cbn; by rewrite <- !app_assoc. }
  intros machine execution_input Hin.
  repeat (apply elem_of_cons in Hin as [Hin | Hin]; [try discriminate Hin |]);
    [| by apply elem_of_nil in Hin].
  injection Hin as -> ->. split; [reflexivity |].
  exists [history; describe], new_name, (json_dumps resumed), (roleArn response), created.
  split; [reflexivity |]. split; [| reflexivity].
  rewrite <- Hcreate. f_equal. by rewrite <- app_assoc.
Qed.

(** ** [query] and [query_to] *)






Lemma split_once_free (sep : ascii) (s : string) :
  occurs sep s = false -> split_once sep s = [s].
Proof.
  induction s as [| c s IH]; [reflexivity |].
  cbn [occurs split_once]. intros Hfree.
  apply orb_false_elim in Hfree as [-> Hfree]. by rewrite (IH Hfree).
Qed.






(** A location that holds no slash once the scheme is removed, as
    [s3://bucket] does, cannot be unpacked into bucket and key:
    [query_to] raises [ValueError] and copies nothing. *)
Theorem query_to_location_without_key (default_s3 : S3Client)
    (athena_runner : AthenaRunner)
    (query_str job_name target_key : string) (target_bucket : option string)
    (s3 : option S3Client) (log : list utils_call) (location : string) :
  query athena_runner query_str job_name log
  = (Done location, log ++ [RunOne query_str job_name]) ->
  location <> EmptyString ->
  occurs "/" (remove_all "s3://" location) = false ->
  query_to default_s3 athena_runner query_str job_name target_key target_bucket s3 log
  = (Fails (Propagated ValueError), log ++ [RunOne query_str job_name]).
Proof.
  intros Hquery Hfilled Hflat.
  unfold query_to, bindU at 1. rewrite Hquery.
  apply String.eqb_neq in Hfilled. rewrite Hfilled.
  by rewrite (split_once_free _ _ Hflat).
Qed.

Lemma query_to_location_without_key_witness :
  query_to sample_s3 (sample_runner (Some "q-1") (Some "s3://results"))
    "select 1" "daily" "reports/out.csv" None None []
  = (Fails (Propagated ValueError), [RunOne "select 1" "daily"]).
Proof.
  refine (query_to_location_without_key sample_s3
            (sample_runner (Some "q-1") (Some "s3://results"))
            "select 1" "daily" "reports/out.csv" None None [] "s3://results"
            eq_refl _ eq_refl).
  discriminate.
Defined.

(** What [query] makes of a run that gave a query id: the location of
    the response, or the [KeyError] of the first member the response
    lacks on the way to it. *)
Theorem query_reads_location (athena_runner : AthenaRunner)
    (query_str job_name : string) (log : list utils_call) (query_id : string) :
  run_one athena_runner log query_str job_name = Ok (Some query_id) ->
  query_id <> EmptyString ->
  let r := last_query_response athena_runner (log ++ [RunOne query_str job_name]) in
  query athena_runner query_str job_name log
  = (match QueryExecution r with
     | None => Fails (Propagated (KeyError "QueryExecution"))
     | Some execution =>
         match ResultConfiguration execution with
         | None => Fails (Propagated (KeyError "ResultConfiguration"))
         | Some configuration =>
             match OutputLocation configuration with
             | None => Fails (Propagated (KeyError "OutputLocation"))
             | Some location => Done location
             end
         end
     end,
     log ++ [RunOne query_str job_name]).
Proof.
  intros Hrun Hid r.
  unfold query, bindU. rewrite Hrun.
  destruct query_id as [| c query_id]; [done |].
  cbn [no_result]. fold r.
  destruct (QueryExecution r) as [execution |]; [| reflexivity].
  cbn [member pure].
  destruct (ResultConfiguration execution) as [configuration |]; [| reflexivity].
  cbn [member pure].
  by destruct (OutputLocation configuration).
Qed.

Lemma query_reads_location_witness :
  query (sample_runner (Some "q-1") None) "select 1" "daily" []
  = (Fails (Propagated (KeyError "OutputLocation")), [RunOne "select 1" "daily"]).
Proof.
  refine (query_reads_location (sample_runner (Some "q-1") None)
            "select 1" "daily" [] "q-1" eq_refl _).
  discriminate.
Defined.

(** Whatever the runner and the storage answer, [query_to] calls the
    runner once and copies at most once, after it; the copy it makes goes
    to the key it was given, with server-side encryption [AES256] and the
    [bucket-owner-full-control] ACL, from the bucket and key cut out of a
    location that [query] returned. *)
Theorem query_to_calls (default_s3 : S3Client) (athena_runner : AthenaRunner)
    (query_str job_name target_key : string) (target_bucket : option string)
    (s3 : option S3Client) (log : list utils_call) :
  let run := RunOne query_str job_name in
  snd (query_to default_s3 athena_runner query_str job_name target_key
         target_bucket s3 log)
  = log ++ [run]
  \/ exists location source_bucket source_key : string,
       query athena_runner query_str job_name log = (Done location, log ++ [run]) /\
       split_once "/" (remove_all "s3://" location) = [source_bucket; source_key] /\
       snd (query_to default_s3 athena_runner query_str job_name target_key
              target_bucket s3 log)
       = log ++ [run;
                 Copy source_bucket source_key (or_else target_bucket source_bucket)
                   target_key "AES256" "bucket-owner-full-control"].
Proof.
  intros run.
  assert (Hlog : snd (query athena_runner query_str job_name log) = log ++ [run]).
  { unfold query, bindU.
    destruct (run_one athena_runner log query_str job_name) as [answer | e];
      [| reflexivity].
    destruct (no_result answer); [reflexivity |].
    destruct (QueryExecution _) as [execution |]; [| reflexivity].
    cbn [member pure].
    destruct (ResultConfiguration execution) as [configuration |]; [| reflexivity].
    cbn [member pure].
    by destruct (OutputLocation configuration). }
  destruct (query athena_runner query_str job_name log) as [[location | e] log']
    eqn:Hquery; cbn [snd] in Hlog; subst log';
    [| left; unfold query_to, bindU at 1; by rewrite Hquery].
  destruct (String.eqb location EmptyString) eqn:Hfilled;
    [left; unfold query_to, bindU at 1; by rewrite Hquery, Hfilled |].
  destruct (split_once "/" (remove_all "s3://" location))
    as [| source_bucket [| source_key [| extra pieces]]] eqn:Hpieces;
    try (left; unfold query_to, bindU at 1; by rewrite Hquery, Hfilled, Hpieces).
  right. exists location, source_bucket, source_key.
  split; [reflexivity |]. split; [exact Hpieces |].
  unfold query_to, bindU at 1. rewrite Hquery, Hfilled, Hpieces.
  unfold bindU. cbn [unpack_two pure fst snd]. by rewrite <- app_assoc.
Qed.
